(** * estate_backend: the real-estate price dashboard

    A shallow embedding of [src/estate_backend.py].  The script is a
    Streamlit page: the framework executes it from the first line to the
    last once per render cycle.  One execution is modelled as a
    computation in a small monad of output, halt ([st.stop()]) and
    uncaught exception; what the script reads
    from the outside world (widget values, the model artifact, the random
    generator) is supplied by a [Host] and a [Generator].

    Python [int]s are [Z]; Python [float]s are IEEE-754 binary64 values,
    modelled with the Standard Library's executable specification
    [SpecFloat] at precision 53 and maximal exponent 1024. *)

From Stdlib Require Import ZArith Lia Bool List String Ascii SpecFloat.
Import ListNotations.
Open Scope string_scope.
Open Scope Z_scope.

(* ================================================================== *)
(** ** Binary64 floating point *)
(* ================================================================== *)

Module Binary64.

Definition prec : Z := 53.
Definition emax : Z := 1024.

(** A Python float.  The values the interpreter can hold are the ones
    accepted by [valid]. *)
Definition float : Type := spec_float.

Definition valid (x : float) : bool := valid_binary prec emax x.

(** [float(z)] for an integer small enough to be exact. *)
Definition of_int (z : Z) : float := binary_normalize prec emax z 0 false.

Definition fmul : float -> float -> float := SFmul prec emax.
Definition fdiv : float -> float -> float := SFdiv prec emax.
Definition fadd : float -> float -> float := SFadd prec emax.
Definition fsub : float -> float -> float := SFsub prec emax.
Definition fabs : float -> float := SFabs.
Definition fopp : float -> float := SFopp.

(** [x == y]: [false] as soon as one side is NaN; the two zeros are equal. *)
Definition feqb : float -> float -> bool := SFeqb.

(** [x < y] and [x <= y]; both are [false] as soon as one side is NaN. *)
Definition fltb : float -> float -> bool := SFltb.
Definition fleb : float -> float -> bool := SFleb.

(** [lo <= x <= hi]. *)
Definition between (lo hi x : float) : bool := fleb lo x && fleb x hi.


(** [np.isfinite]: neither NaN nor an infinity. *)
Definition is_finite (x : float) : bool :=
  match x with S754_zero _ | S754_finite _ _ _ => true | _ => false end.

(** A decimal literal [n/d]: the binary64 value nearest to the quotient,
    which is how the Python reader rounds [0.9], [1.1] and [1.2]. *)
Definition literal (n d : Z) : float := fdiv (of_int n) (of_int d).

Definition f0_0 : float := Eval vm_compute in of_int 0.
Definition f0_9 : float := Eval vm_compute in literal 9 10.
Definition f1_1 : float := Eval vm_compute in literal 11 10.
Definition f1_2 : float := Eval vm_compute in literal 12 10.
Definition f5_0 : float := Eval vm_compute in of_int 5.
Definition f15 : float := Eval vm_compute in of_int 15.
Definition f100_0 : float := Eval vm_compute in of_int 100.
Definition f450000 : float := Eval vm_compute in of_int 450000.
Definition f500000 : float := Eval vm_compute in of_int 500000.
Definition f550000 : float := Eval vm_compute in of_int 550000.

(** Python's built-in [max] over a list: it keeps the first item and
    replaces it whenever a later item compares greater.  On the empty
    list Python raises [ValueError]; the script only calls it on a
    two-element list, and NaN stands for that case here. *)
Definition py_max (l : list float) : float :=
  match l with
  | [] => S754_nan
  | x :: rest => fold_left (fun best item => if fltb best item then item else best) rest x
  end.

End Binary64.

Import Binary64.

(* ================================================================== *)
(** ** Data model *)
(* ================================================================== *)

(** The ten Python variables read from the sidebar (lines 32-41), under
    the names the script gives them. *)
Record Inputs : Type := {
  Square_Feet : Z;
  Num_Bedrooms : Z;
  Num_Bathrooms : Z;
  Num_Floors : Z;
  Year_Built : Z;
  Has_Garden : Z;
  Has_Pool : Z;
  Garage_Size : Z;
  Location_Score : Z;
  Distance_to_Center : float
}.

(** A pandas [DataFrame] built from a dict of columns: the columns keep
    their insertion order, so it is an association list from the column
    name to the column's cells. *)
Inductive cell : Type :=
| IntCell (z : Z)
| FloatCell (x : float).

Definition DataFrame : Type := list (string * list cell).

Fixpoint column (name : string) (X : DataFrame) : option (list cell) :=
  match X with
  | [] => None
  | (k, cells) :: rest => if String.eqb k name then Some cells else column name rest
  end.

(** The outcome of a call that may raise: the value, or [str(e)] of the
    exception. *)
Inductive result (A : Type) : Type :=
| Ok (a : A)
| Raise (msg : string).
Arguments Ok {A} a.
Arguments Raise {A} msg.

(** The deserialised artifact.  The script uses one operation of it,
    [predict], which returns an array of predictions or raises. *)
Record Model : Type := { predict : DataFrame -> result (list float) }.

(** [model.predict(input_data)[0]], line 88: indexing an empty array
    raises too, inside the same [try]. *)
Definition predict_first (model : Model) (X : DataFrame) : result float :=
  match predict model X with
  | Raise e => Raise e
  | Ok [] => Raise "index 0 is out of bounds for axis 0 with size 0"
  | Ok (y :: _) => Ok y
  end.

(* ================================================================== *)
(** ** matplotlib: the figure the script draws *)
(* ================================================================== *)

Module plt.

Record Bar : Type := { label : string; height : float; color : string }.

Record Figure : Type := {
  figsize : Z * Z;
  bars : list Bar;
  ylabel : string;
  title : string;
  ylim : option (float * float)   (* [None]: matplotlib's automatic limits *)
}.

(** First colour of matplotlib's default cycle, given to a new bar. *)
Definition default_color : string := "#1f77b4".

Definition subplots (size : Z * Z) : Figure :=
  {| figsize := size; bars := []; ylabel := EmptyString; title := EmptyString;
     ylim := None |}.

(** [ax.bar(labels, values)]: one bar per label, paired in order. *)
Definition bar (labels : list string) (values : list float) (fig : Figure) : Figure :=
  {| figsize := figsize fig;
     bars := map (fun lv => {| label := fst lv; height := snd lv;
                                color := default_color |})
                 (combine labels values);
     ylabel := ylabel fig; title := title fig; ylim := ylim fig |}.

Fixpoint recolor (i : nat) (c : string) (l : list Bar) : list Bar :=
  match l, i with
  | [], _ => []
  | b :: rest, O => {| label := label b; height := height b; color := c |} :: rest
  | b :: rest, S j => b :: recolor j c rest
  end.

(** [bars[i].set_color(c)].  The script indexes bars 0 and 1 of a
    two-bar container; an index past the end (an [IndexError] in Python)
    leaves the list as it is here. *)
Definition set_color (i : nat) (c : string) (fig : Figure) : Figure :=
  {| figsize := figsize fig; bars := recolor i c (bars fig);
     ylabel := ylabel fig; title := title fig; ylim := ylim fig |}.

Definition set_ylabel (s : string) (fig : Figure) : Figure :=
  {| figsize := figsize fig; bars := bars fig; ylabel := s;
     title := title fig; ylim := ylim fig |}.

Definition set_title (s : string) (fig : Figure) : Figure :=
  {| figsize := figsize fig; bars := bars fig; ylabel := ylabel fig;
     title := s; ylim := ylim fig |}.

(** *** [Axes.set_ylim] on a linear axis

    matplotlib converts the two limits to floats, refuses a limit that
    is NaN or infinite, remembers whether the range was given upside
    down, widens a range that is too small to draw, and stores the
    result in the order it was given. *)

(** [expander] and [tiny] of [matplotlib.transforms.nonsingular] as the
    locator of a linear axis calls it: 0.05 and 1e-15. *)
Definition expander : float := Eval vm_compute in literal 5 100.
Definition tiny : float := Eval vm_compute in literal 1 (10 ^ 15).

(** [np.finfo(float).tiny], the smallest positive normal number. *)
Definition finfo_tiny : float := S754_finite false 4503599627370496 (-1074).

(** [(1e6 / tiny) * np.finfo(float).tiny]: a range whose larger end is
    below this in magnitude is replaced. *)
Definition singular_below : float :=
  Eval vm_compute in fmul (fdiv (of_int 1000000) tiny) finfo_tiny.

(** [nonsingular(vmin, vmax, expander=0.05)], with its default
    [increasing=True]: the result is in increasing order. *)
Definition nonsingular (vmin vmax : float) : float * float :=
  if negb (is_finite vmin) || negb (is_finite vmax) then (fopp expander, expander)
  else
    let swapped := fltb vmax vmin in
    let lo := if swapped then vmax else vmin in
    let hi := if swapped then vmin else vmax in
    let maxabsvalue := py_max [fabs lo; fabs hi] in
    if fltb maxabsvalue singular_below then (fopp expander, expander)
    else if fleb (fsub hi lo) (fmul maxabsvalue tiny) then
      if feqb hi f0_0 && feqb lo f0_0 then (fopp expander, expander)
      else (fsub lo (fmul expander (fabs lo)), fadd hi (fmul expander (fabs hi)))
    else (lo, hi).

(** [sorted([v0, v1], reverse=reverse)] *)
Definition sorted_pair (reverse : bool) (v0 v1 : float) : float * float :=
  if reverse then (if fltb v0 v1 then (v1, v0) else (v0, v1))
  else (if fltb v1 v0 then (v1, v0) else (v0, v1)).

Definition limits_error : string := "Axis limits cannot be NaN or Inf".

(** [ax.set_ylim(bottom, top)] with an integer [bottom], as line 115
    calls it.  It raises [ValueError] on a limit that is not finite. *)
Definition set_ylim (bottom : Z) (top : float) (fig : Figure) : result Figure :=
  let v0 := of_int bottom in
  let v1 := top in
  if negb (is_finite v0) || negb (is_finite v1) then Raise limits_error
  else
    let reverse := fltb v1 v0 in
    let '(w0, w1) := nonsingular v0 v1 in
    Ok {| figsize := figsize fig; bars := bars fig; ylabel := ylabel fig;
          title := title fig; ylim := Some (sorted_pair reverse w0 w1) |}.

End plt.

(* ================================================================== *)
(** ** Streamlit: what a render cycle puts on the page *)
(* ================================================================== *)

Module st.

Inductive container : Type := main | sidebar | col1 | col2.

Inductive element : Type :=
| set_page_config (page_title page_icon layout initial_sidebar_state : string)
| title (body : string)
| write (body : string)
| markdown (body : string) (unsafe_allow_html : bool)
| subheader (body : string)
| columns (spec : list Z)
| number_input (label : string)
| selectbox (label : string)
| slider (label : string)
| button (label : string)
| error (body : string)
| warning (body : string)
| info (body : string)
(** [st.success(f"{text}{amount:,.2f}")]: the amount is kept as the
    number that is formatted. *)
| success (text : string) (amount : float)
| pyplot (fig : plt.Figure).

End st.

(** What one execution of the script does that can be observed: page
    elements in the order they are emitted, and the calls it makes to
    its three collaborators. *)
Inductive event : Type :=
| Ui (place : st.container) (what : st.element)
| LoadCall (path : string)                (* joblib.load *)
| PredictCall (X : DataFrame)             (* model.predict *)
| UniformCall (low high : float).         (* np.random.uniform *)

(** What the outside world answers during one render cycle.  Widgets
    return the value currently held by the browser for that label; the
    arguments are the ones the script passes ([min_value], [max_value],
    [value], or the option list). *)
Record Host : Type := {
  number_input_int : string -> Z -> Z -> Z -> Z;
  number_input_float : string -> float -> float -> float -> float;
  selectbox_choice : string -> list Z -> Z;
  slider_value : string -> Z -> Z -> Z -> Z;
  button_clicked : string -> bool;
  joblib_load : string -> result Model
}.

(** The process-wide NumPy generator: [gen k low high] is what the
    [k]-th call of [np.random.uniform(low, high)] of this process
    returns.  The number of calls made so far is the only state that
    survives from one render cycle to the next. *)
Definition Generator : Type := nat -> float -> float -> float.

(* ================================================================== *)
(** ** The script monad *)
(* ================================================================== *)

(** State threaded through one execution: the events so far, oldest
    first, and the number of draws taken from the generator. *)
Record State : Type := { trace : list event; draws : nat }.

(** How an execution ends.  [st.stop()] ends it on the spot: nothing
    after it runs.  So does an exception that nothing catches; the
    framework then shows the traceback where the rest of the page would
    have been, which is not an element the script emits. *)
Inductive outcome (A : Type) : Type :=
| Returned (a : A)
| Halted
| Raised (msg : string).
Arguments Returned {A} a.
Arguments Halted {A}.
Arguments Raised {A} msg.

Definition Script (A : Type) : Type := State -> outcome A * State.

Definition ret {A : Type} (a : A) : Script A := fun s => (Returned a, s).

Definition bind {A B : Type} (c : Script A) (k : A -> Script B) : Script B :=
  fun s =>
    match c s with
    | (Returned a, s') => k a s'
    | (Halted, s') => (Halted, s')
    | (Raised msg, s') => (Raised msg, s')
    end.

Declare Scope script_scope.
Delimit Scope script_scope with script.
Notation "x <- c ;; k" := (bind c (fun x => k))
  (at level 61, c at next level, right associativity) : script_scope.
Notation "c ;; k" := (bind c (fun _ => k))
  (at level 61, right associativity) : script_scope.

Definition record (ev : event) : Script unit :=
  fun s => (Returned tt, {| trace := trace s ++ [ev]; draws := draws s |}).

Definition emit (place : st.container) (what : st.element) : Script unit :=
  record (Ui place what).

Definition stop {A : Type} : Script A := fun s => (Halted, s).

(** A call outside any [try]: its exception ends the execution. *)
Definition uncaught {A : Type} (r : result A) : Script A :=
  fun s =>
    match r with
    | Ok a => (Returned a, s)
    | Raise msg => (Raised msg, s)
    end.

(** [for x in l: body(x)] *)
Fixpoint for_each {A : Type} (l : list A) (body : A -> Script unit) : Script unit :=
  match l with
  | [] => ret tt
  | x :: rest => bind (body x) (fun _ => for_each rest body)
  end.

(** [np.random.uniform(low, high)]: takes the generator's next draw. *)
Definition np_random_uniform (gen : Generator) (low high : float) : Script float :=
  fun s =>
    (Returned (gen (draws s) low high),
     {| trace := trace s ++ [UniformCall low high]; draws := S (draws s) |}).

(* ================================================================== *)
(** ** The script, section by section *)
(* ================================================================== *)

Definition nl : string := String (ascii_of_nat 10) EmptyString.
Definition dq : string := String (ascii_of_nat 34) EmptyString.

Definition model_file : string := "linear_regression_real_estate.joblib".

(** Lines 10-14.  [Ok model] stands for the [try] branch; [Raise e] for
    the handler, which sets [model = None] and [load_error = str(e)]. *)
Definition load_model (h : Host) : Script (result Model) :=
  (record (LoadCall model_file) ;;
   ret (joblib_load h model_file))%script.

(** Lines 19-24. *)
Definition page_setup : Script unit :=
  emit st.main
    (st.set_page_config "🏡 Real Estate Price Prediction" "🏠" "wide" "expanded").

(** The four kinds of sidebar control: the control is drawn and the
    browser's current value for it is returned. *)
Definition sidebar_number_input (h : Host) (label : string) (min_value max_value value : Z)
  : Script Z :=
  (emit st.sidebar (st.number_input label) ;;
   ret (number_input_int h label min_value max_value value))%script.

Definition sidebar_number_input_float (h : Host) (label : string)
  (min_value max_value value : float) : Script float :=
  (emit st.sidebar (st.number_input label) ;;
   ret (number_input_float h label min_value max_value value))%script.

Definition sidebar_selectbox (h : Host) (label : string) (options : list Z) : Script Z :=
  (emit st.sidebar (st.selectbox label) ;;
   ret (selectbox_choice h label options))%script.

Definition sidebar_slider (h : Host) (label : string) (min_value max_value value : Z)
  : Script Z :=
  (emit st.sidebar (st.slider label) ;;
   ret (slider_value h label min_value max_value value))%script.

(** Lines 29-41. *)
Definition sidebar (h : Host) : Script Inputs :=
  (emit st.sidebar (st.title "🏡 Property Input Panel") ;;
   emit st.sidebar (st.write "Fill in the details below to predict the property price.") ;;
   Square_Feet <- sidebar_number_input h "📏 Square Feet" 200 20000 1500 ;;
   Num_Bedrooms <- sidebar_number_input h "🛏 Bedrooms" 0 20 3 ;;
   Num_Bathrooms <- sidebar_number_input h "🛁 Bathrooms" 0 20 2 ;;
   Num_Floors <- sidebar_number_input h "🏢 Floors" 1 10 1 ;;
   Year_Built <- sidebar_number_input h "📅 Year Built" 1800 2025 2010 ;;
   Has_Garden <- sidebar_selectbox h "🌳 Has Garden?" [0; 1] ;;
   Has_Pool <- sidebar_selectbox h "🏊 Has Pool?" [0; 1] ;;
   Garage_Size <- sidebar_number_input h "🚗 Garage Size (Cars)" 0 10 1 ;;
   Location_Score <- sidebar_slider h "📍 Location Score (1–10)" 1 10 7 ;;
   Distance_to_Center <-
     sidebar_number_input_float h "📌 Distance to Center (Km)" f0_0 f100_0 f5_0 ;;
   ret {| Square_Feet := Square_Feet;
          Num_Bedrooms := Num_Bedrooms;
          Num_Bathrooms := Num_Bathrooms;
          Num_Floors := Num_Floors;
          Year_Built := Year_Built;
          Has_Garden := Has_Garden;
          Has_Pool := Has_Pool;
          Garage_Size := Garage_Size;
          Location_Score := Location_Score;
          Distance_to_Center := Distance_to_Center |})%script.

(** Lines 44-55: one row, ten columns, in this order. *)
Definition input_data (i : Inputs) : DataFrame :=
  [ ("Square_Feet", [IntCell (Square_Feet i)]);
    ("Num_Bedrooms", [IntCell (Num_Bedrooms i)]);
    ("Num_Bathrooms", [IntCell (Num_Bathrooms i)]);
    ("Num_Floors", [IntCell (Num_Floors i)]);
    ("Year_Built", [IntCell (Year_Built i)]);
    ("Has_Garden", [IntCell (Has_Garden i)]);
    ("Has_Pool", [IntCell (Has_Pool i)]);
    ("Garage_Size", [IntCell (Garage_Size i)]);
    ("Location_Score", [IntCell (Location_Score i)]);
    ("Distance_to_Center", [FloatCell (Distance_to_Center i)]) ].

(** Lines 60-77. *)
Definition page_header : Script unit :=
  (emit st.main (st.title "🏡 Real Estate Price Prediction Dashboard") ;;
   emit st.main (st.write
     ("A modern machine learning system that analyzes property features and " ++
      "predicts an estimated market value with insights and recommendations.")) ;;
   emit st.main (st.markdown "---" false) ;;
   emit st.main (st.columns [2; 1]) ;;
   emit st.col1 (st.subheader "🔍 Prediction Summary") ;;
   emit st.col2 (st.write EmptyString))%script.

(** Lines 102-104: the benchmark and the two bar heights.  [u] is the
    draw. *)
Definition avg_price (prediction u : float) : float := fmul prediction u.

Definition labels : list string := ["Predicted Price"; "Benchmark Price"].

Definition values (prediction u : float) : list float :=
  [prediction; avg_price prediction u].

(** [max(values) * 1.2], the upper limit line 115 asks for. *)
Definition axis_limit (prediction u : float) : float :=
  fmul (py_max (values prediction u)) f1_2.

(** Lines 106-115.  The figure is complete only if [set_ylim] accepts
    the limit. *)
Definition chart (prediction u : float) : result plt.Figure :=
  let fig := plt.subplots (6, 4) in
  let fig := plt.bar labels (values prediction u) fig in
  let fig := plt.set_color 0 "#4CAF50" fig in
  let fig := plt.set_color 1 "#2196F3" fig in
  let fig := plt.set_ylabel "Price ($)" fig in
  let fig := plt.set_title "Predicted vs Benchmark Market Price" fig in
  plt.set_ylim 0 (axis_limit prediction u) fig.

(** Lines 124-149: the list starts empty and each [if] appends to it in
    one branch or the other. *)
Definition insights (i : Inputs) : list string :=
  let insights : list string := [] in
  let insights :=
    if (Location_Score i <? 5)%Z
    then (insights ++ ["📍 **Location Score is below average** — improving neighborhood appeal increases property value."])%list
    else (insights ++ ["📍 **Good Location Score** — this strongly boosts the property's market value."])%list in
  let insights :=
    if (Has_Pool i =? 1)%Z
    then (insights ++ ["🏊 **Pool detected** — adds luxury appeal and may increase value depending on region."])%list
    else (insights ++ ["🏊 Adding a small pool could improve resale value in high-income locations."])%list in
  let insights :=
    if (Year_Built i <? 2000)%Z
    then (insights ++ ["🏚 **Older building** — renovations or upgrades could significantly increase the price."])%list
    else (insights ++ ["🏠 **Modern building year** — great for valuation and reduces maintenance concerns."])%list in
  let insights :=
    if fltb f15 (Distance_to_Center i)
    then (insights ++ ["🚗 **Far from city center** — location may affect buyer demand. Consider pricing strategy."])%list
    else (insights ++ ["🚗 **Good proximity to the city** — attractive for buyers and raises value."])%list in
  let insights :=
    if (Square_Feet i <? 800)%Z
    then (insights ++ ["📏 Property is relatively small — expanding space could increase market worth."])%list
    else (insights ++ ["📏 Good overall space — larger area increases valuation strength."])%list in
  insights.

Definition final_message : string :=
  "Based on this prediction, consider improving high-impact features such as " ++
  "location appearance, increasing living space, and adding modern facilities " ++
  "to further increase the market value.".

(** Lines 87-91: the call, and what the handler does when it raises. *)
Definition run_prediction (model : Model) (X : DataFrame) : Script float :=
  (record (PredictCall X) ;;
   match predict_first model X with
   | Ok prediction => ret prediction
   | Raise e =>
       emit st.main (st.error ("Prediction failed: " ++ e)) ;;
       stop
   end)%script.

(** Lines 87-166: the body of [if st.sidebar.button(...)].  The chart
    is built outside the [try]: when [set_ylim] raises, the execution
    ends at line 115. *)
Definition prediction_section (gen : Generator) (model : Model) (i : Inputs)
  : Script unit :=
  (prediction <- run_prediction model (input_data i) ;;
   emit st.col1 (st.success "### 💰 Estimated Price: $" prediction) ;;
   emit st.main (st.subheader "📊 Price Comparison Chart") ;;
   u <- np_random_uniform gen f0_9 f1_1 ;;
   fig <- uncaught (chart prediction u) ;;
   emit st.main (st.pyplot fig) ;;
   emit st.main (st.subheader "📌 Insights & Recommendations") ;;
   for_each (insights i) (fun tip => emit st.main (st.write ("- " ++ tip))) ;;
   emit st.main (st.markdown "---" false) ;;
   emit st.main (st.subheader "💡 Final Recommendation") ;;
   emit st.main (st.info final_message))%script.

(** Lines 80-169. *)
Definition prediction_panel (gen : Generator) (h : Host) (loaded : result Model)
  (i : Inputs) : Script unit :=
  match loaded with
  | Raise load_error =>
      emit st.main (st.error
        ("Model failed to load. Put 'linear_regression_real_estate.joblib' in this folder."
         ++ nl ++ "Error: " ++ load_error))
  | Ok model =>
      (emit st.sidebar (st.button "🔮 Predict Price") ;;
       if button_clicked h "🔮 Predict Price"
       then prediction_section gen model i
       else emit st.main
              (st.warning "👈 Enter details on the left panel and click **Predict Price**."))%script
  end.

Definition footer_html : string :=
  nl ++ "    <div style=" ++ dq ++
  "text-align: center; padding: 10px; font-size: 16px; color: #555;" ++ dq ++ ">" ++
  nl ++ "        <strong>Built by Oluwaseun Martins — Data Scientist</strong>" ++
  nl ++ "    </div>" ++ nl ++ "    ".

(** Lines 174-182. *)
Definition footer : Script unit :=
  (emit st.main (st.markdown "---" false) ;;
   emit st.main (st.markdown footer_html true))%script.

(** The whole file, top to bottom. *)
Definition estate_backend (gen : Generator) (h : Host) : Script unit :=
  (loaded <- load_model h ;;
   page_setup ;;
   i <- sidebar h ;;
   page_header ;;
   prediction_panel gen h loaded i ;;
   footer)%script.

(* ================================================================== *)
(** ** Render cycles and sessions *)
(* ================================================================== *)

(** One render cycle: the script runs on an empty page, with the
    generator where the previous cycles left it. *)
Definition render (gen : Generator) (h : Host) (d : nat) : outcome unit * State :=
  estate_backend gen h {| trace := []; draws := d |}.

Definition page (gen : Generator) (h : Host) (d : nat) : list event :=
  trace (snd (render gen h d)).

(** A run of the server process: one render cycle per interaction, each
    against the host as it is at that moment.  The result is the page of
    each cycle, in order. *)
Fixpoint session (gen : Generator) (hs : list Host) (d : nat) : list (list event) :=
  match hs with
  | [] => []
  | h :: rest =>
      let s := snd (render gen h d) in
      trace s :: session gen rest (draws s)
  end.

(* ================================================================== *)
(** ** Vocabulary of the specification *)
(* ================================================================== *)

(** The five rules of the insight table and the two themes of each. *)
Inductive rule : Type := Location | Pool | Age | Distance | Size.

Inductive theme : Type :=
| BelowAverageLocation | GoodLocation
| PoolLuxury | SuggestPool
| OlderBuilding | ModernBuilding
| FarFromCenter | GoodProximity
| SmallProperty | GoodSpace.

Definition rule_of (t : theme) : rule :=
  match t with
  | BelowAverageLocation | GoodLocation => Location
  | PoolLuxury | SuggestPool => Pool
  | OlderBuilding | ModernBuilding => Age
  | FarFromCenter | GoodProximity => Distance
  | SmallProperty | GoodSpace => Size
  end.

(** The sentence the script uses for each theme. *)
Definition theme_text (t : theme) : string :=
  match t with
  | BelowAverageLocation => "📍 **Location Score is below average** — improving neighborhood appeal increases property value."
  | GoodLocation => "📍 **Good Location Score** — this strongly boosts the property's market value."
  | PoolLuxury => "🏊 **Pool detected** — adds luxury appeal and may increase value depending on region."
  | SuggestPool => "🏊 Adding a small pool could improve resale value in high-income locations."
  | OlderBuilding => "🏚 **Older building** — renovations or upgrades could significantly increase the price."
  | ModernBuilding => "🏠 **Modern building year** — great for valuation and reduces maintenance concerns."
  | FarFromCenter => "🚗 **Far from city center** — location may affect buyer demand. Consider pricing strategy."
  | GoodProximity => "🚗 **Good proximity to the city** — attractive for buyers and raises value."
  | SmallProperty => "📏 Property is relatively small — expanding space could increase market worth."
  | GoodSpace => "📏 Good overall space — larger area increases valuation strength."
  end.

Definition all_themes : list theme :=
  [BelowAverageLocation; GoodLocation; PoolLuxury; SuggestPool; OlderBuilding;
   ModernBuilding; FarFromCenter; GoodProximity; SmallProperty; GoodSpace].

(** The theme a sentence carries, if it is one of the ten. *)
Definition theme_of (s : string) : option theme :=
  find (fun t => String.eqb (theme_text t) s) all_themes.

Definition rule_of_insight (s : string) : option rule := option_map rule_of (theme_of s).

(** The theme of the [k]-th insight derived from [i] (counting from 0). *)
Definition theme_at (k : nat) (i : Inputs) : option theme :=
  match nth_error (insights i) k with
  | Some s => theme_of s
  | None => None
  end.

(** The declared ranges of the ten fields (section 3 of the spec), on
    the script's variables ... *)
Definition in_declared_ranges (i : Inputs) : Prop :=
  200 <= Square_Feet i <= 20000 /\
  0 <= Num_Bedrooms i <= 20 /\
  0 <= Num_Bathrooms i <= 20 /\
  1 <= Num_Floors i <= 10 /\
  1800 <= Year_Built i <= 2025 /\
  (Has_Garden i = 0 \/ Has_Garden i = 1) /\
  (Has_Pool i = 0 \/ Has_Pool i = 1) /\
  0 <= Garage_Size i <= 10 /\
  1 <= Location_Score i <= 10 /\
  between f0_0 f100_0 (Distance_to_Center i) = true.

(** ... and on a data frame, column by column. *)
Definition int_field (name : string) (lo hi : Z) (X : DataFrame) : Prop :=
  exists z, column name X = Some [IntCell z] /\ lo <= z <= hi.

Definition flag_field (name : string) (X : DataFrame) : Prop :=
  exists z, column name X = Some [IntCell z] /\ (z = 0 \/ z = 1).

Definition float_field (name : string) (lo hi : float) (X : DataFrame) : Prop :=
  exists x, column name X = Some [FloatCell x] /\ between lo hi x = true.

Definition feature_record_in_ranges (X : DataFrame) : Prop :=
  List.length X = 10%nat /\
  int_field "Square_Feet" 200 20000 X /\
  int_field "Num_Bedrooms" 0 20 X /\
  int_field "Num_Bathrooms" 0 20 X /\
  int_field "Num_Floors" 1 10 X /\
  int_field "Year_Built" 1800 2025 X /\
  flag_field "Has_Garden" X /\
  flag_field "Has_Pool" X /\
  int_field "Garage_Size" 0 10 X /\
  int_field "Location_Score" 1 10 X /\
  float_field "Distance_to_Center" f0_0 f100_0 X.

(** The record of declared defaults. *)
Definition default_inputs : Inputs :=
  {| Square_Feet := 1500; Num_Bedrooms := 3; Num_Bathrooms := 2; Num_Floors := 1;
     Year_Built := 2010; Has_Garden := 0; Has_Pool := 0; Garage_Size := 1;
     Location_Score := 7; Distance_to_Center := f5_0 |}.

(** The contract of the toolkit's bounded controls: a control whose
    initial value is within its bounds returns a value within them, and
    a select box returns one of its options. *)
Record bounded_controls (h : Host) : Prop := {
  number_input_int_bounded :
    forall label lo hi v, lo <= v <= hi -> lo <= number_input_int h label lo hi v <= hi;
  number_input_float_bounded :
    forall label lo hi v, between lo hi v = true ->
      between lo hi (number_input_float h label lo hi v) = true;
  selectbox_among_options :
    forall label o os, In (selectbox_choice h label (o :: os)) (o :: os);
  slider_bounded :
    forall label lo hi v, lo <= v <= hi -> lo <= slider_value h label lo hi v <= hi
}.

(** A page nobody has touched yet: every control returns its initial
    value, a select box its first option. *)
Record untouched (h : Host) : Prop := {
  number_input_int_initial : forall label lo hi v, number_input_int h label lo hi v = v;
  number_input_float_initial : forall label lo hi v, number_input_float h label lo hi v = v;
  selectbox_initial : forall label o os, selectbox_choice h label (o :: os) = o;
  slider_initial : forall label lo hi v, slider_value h label lo hi v = v
}.

(** The values the sidebar reads in a cycle. *)
Definition read_inputs (h : Host) : Inputs :=
  {| Square_Feet := number_input_int h "📏 Square Feet" 200 20000 1500;
     Num_Bedrooms := number_input_int h "🛏 Bedrooms" 0 20 3;
     Num_Bathrooms := number_input_int h "🛁 Bathrooms" 0 20 2;
     Num_Floors := number_input_int h "🏢 Floors" 1 10 1;
     Year_Built := number_input_int h "📅 Year Built" 1800 2025 2010;
     Has_Garden := selectbox_choice h "🌳 Has Garden?" [0; 1];
     Has_Pool := selectbox_choice h "🏊 Has Pool?" [0; 1];
     Garage_Size := number_input_int h "🚗 Garage Size (Cars)" 0 10 1;
     Location_Score := slider_value h "📍 Location Score (1–10)" 1 10 7;
     Distance_to_Center :=
       number_input_float h "📌 Distance to Center (Km)" f0_0 f100_0 f5_0 |}.

(** *** Reading a page *)

Fixpoint collect {A : Type} (f : event -> option A) (t : list event) : list A :=
  match t with
  | [] => []
  | ev :: rest =>
      match f ev with
      | Some a => a :: collect f rest
      | None => collect f rest
      end
  end.

Definition load_calls : list event -> list string :=
  collect (fun ev => match ev with LoadCall p => Some p | _ => None end).

Definition predict_calls : list event -> list DataFrame :=
  collect (fun ev => match ev with PredictCall X => Some X | _ => None end).

Definition uniform_calls : list event -> list (float * float) :=
  collect (fun ev => match ev with UniformCall lo hi => Some (lo, hi) | _ => None end).

Definition charts : list event -> list plt.Figure :=
  collect (fun ev => match ev with Ui _ (st.pyplot fig) => Some fig | _ => None end).

Definition errors : list event -> list string :=
  collect (fun ev => match ev with Ui _ (st.error body) => Some body | _ => None end).

Definition buttons : list event -> list string :=
  collect (fun ev => match ev with Ui _ (st.button label) => Some label | _ => None end).

Definition prices : list event -> list float :=
  collect (fun ev => match ev with Ui _ (st.success _ amount) => Some amount | _ => None end).

Definition titles : list event -> list string :=
  collect (fun ev => match ev with Ui _ (st.title body) => Some body | _ => None end).

Definition subheaders : list event -> list string :=
  collect (fun ev => match ev with Ui _ (st.subheader body) => Some body | _ => None end).

Definition recommendations : list event -> list string :=
  collect (fun ev => match ev with Ui _ (st.info body) => Some body | _ => None end).

(** The attribution block is the one element written as raw HTML. *)
Definition footers : list event -> list string :=
  collect (fun ev => match ev with Ui _ (st.markdown body true) => Some body | _ => None end).

(** The bullet items of the main area: [st.write(f"- {tip}")]. *)
Definition bullet (body : string) : option string :=
  match body with
  | String "-"%char (String " "%char tip) => Some tip
  | _ => None
  end.

Definition shown_insights : list event -> list string :=
  collect (fun ev => match ev with Ui st.main (st.write body) => bullet body | _ => None end).

(** The bar of a figure with a given label. *)
Definition bar_named (name : string) (fig : plt.Figure) : option plt.Bar :=
  find (fun b => String.eqb (plt.label b) name) (plt.bars fig).

(** [msg] occurs in [body]. *)
Definition contains (msg body : string) : Prop :=
  exists before after, body = before ++ msg ++ after.

(** *** The fixed parts of every page *)

(** Everything the script does before it looks at the model: lines
    10-77.  None of it depends on what the controls return. *)
Definition opening : list event :=
  [ LoadCall model_file;
    Ui st.main (st.set_page_config "🏡 Real Estate Price Prediction" "🏠" "wide" "expanded");
    Ui st.sidebar (st.title "🏡 Property Input Panel");
    Ui st.sidebar (st.write "Fill in the details below to predict the property price.");
    Ui st.sidebar (st.number_input "📏 Square Feet");
    Ui st.sidebar (st.number_input "🛏 Bedrooms");
    Ui st.sidebar (st.number_input "🛁 Bathrooms");
    Ui st.sidebar (st.number_input "🏢 Floors");
    Ui st.sidebar (st.number_input "📅 Year Built");
    Ui st.sidebar (st.selectbox "🌳 Has Garden?");
    Ui st.sidebar (st.selectbox "🏊 Has Pool?");
    Ui st.sidebar (st.number_input "🚗 Garage Size (Cars)");
    Ui st.sidebar (st.slider "📍 Location Score (1–10)");
    Ui st.sidebar (st.number_input "📌 Distance to Center (Km)");
    Ui st.main (st.title "🏡 Real Estate Price Prediction Dashboard");
    Ui st.main (st.write
      ("A modern machine learning system that analyzes property features and " ++
       "predicts an estimated market value with insights and recommendations."));
    Ui st.main (st.markdown "---" false);
    Ui st.main (st.columns [2; 1]);
    Ui st.col1 (st.subheader "🔍 Prediction Summary");
    Ui st.col2 (st.write EmptyString) ].

(** Lines 174-182, reached only when the script gets that far. *)
Definition closing : list event :=
  [ Ui st.main (st.markdown "---" false);
    Ui st.main (st.markdown footer_html true) ].

Definition load_failure_message (load_error : string) : string :=
  "Model failed to load. Put 'linear_regression_real_estate.joblib' in this folder."
  ++ nl ++ "Error: " ++ load_error.

(** What a cycle emits from the button to the draw (lines 84-102) once
    the prediction [p] has returned. *)
Definition started_events (i : Inputs) (p : float) : list event :=
  [ Ui st.sidebar (st.button "🔮 Predict Price");
    PredictCall (input_data i);
    Ui st.col1 (st.success "### 💰 Estimated Price: $" p);
    Ui st.main (st.subheader "📊 Price Comparison Chart");
    UniformCall f0_9 f1_1 ].

(** The part of a page that a completed prediction adds (lines 84-166),
    for prediction [p] and figure [fig]. *)
Definition result_events (i : Inputs) (p : float) (fig : plt.Figure) : list event :=
  started_events i p
  ++ [ Ui st.main (st.pyplot fig);
       Ui st.main (st.subheader "📌 Insights & Recommendations") ]
  ++ map (fun tip => Ui st.main (st.write ("- " ++ tip))) (insights i)
  ++ [ Ui st.main (st.markdown "---" false);
       Ui st.main (st.subheader "💡 Final Recommendation");
       Ui st.main (st.info final_message) ].

(** *** The four ways a render cycle can go *)

Inductive cycle_kind : Type :=
| LoadFailed (e : string)
| Idle (model : Model)
| PredictionFailed (model : Model) (e : string)
| PredictionOk (model : Model) (p : float).

(** What makes a cycle go that way. *)
Definition cycle_is (h : Host) (k : cycle_kind) : Prop :=
  match k with
  | LoadFailed e => joblib_load h model_file = Raise e
  | Idle model =>
      joblib_load h model_file = Ok model /\
      button_clicked h "🔮 Predict Price" = false
  | PredictionFailed model e =>
      joblib_load h model_file = Ok model /\
      button_clicked h "🔮 Predict Price" = true /\
      predict_first model (input_data (read_inputs h)) = Raise e
  | PredictionOk model p =>
      joblib_load h model_file = Ok model /\
      button_clicked h "🔮 Predict Price" = true /\
      predict_first model (input_data (read_inputs h)) = Ok p
  end.

(** The outcome and final state of a cycle that goes that way, started
    with [d] draws taken.  A prediction that returned splits in two:
    the chart is drawn and the cycle runs to its end, or [set_ylim]
    raises and the cycle ends at line 115. *)
Definition cycle_render (gen : Generator) (h : Host) (d : nat) (k : cycle_kind)
  : outcome unit * State :=
  match k with
  | LoadFailed e =>
      (Returned tt,
       {| trace := (opening ++ [Ui st.main (st.error (load_failure_message e))]
                    ++ closing)%list;
          draws := d |})
  | Idle _ =>
      (Returned tt,
       {| trace :=
            (opening ++
             [ Ui st.sidebar (st.button "🔮 Predict Price");
               Ui st.main
                 (st.warning
                    "👈 Enter details on the left panel and click **Predict Price**.") ]
             ++ closing)%list;
          draws := d |})
  | PredictionFailed _ e =>
      (Halted,
       {| trace :=
            (opening ++
             [ Ui st.sidebar (st.button "🔮 Predict Price");
               PredictCall (input_data (read_inputs h));
               Ui st.main (st.error ("Prediction failed: " ++ e)) ])%list;
          draws := d |})
  | PredictionOk _ p =>
      match chart p (gen d f0_9 f1_1) with
      | Ok fig =>
          (Returned tt,
           {| trace := (opening ++ result_events (read_inputs h) p fig ++ closing)%list;
              draws := S d |})
      | Raise msg =>
          (Raised msg,
           {| trace := (opening ++ started_events (read_inputs h) p)%list;
              draws := S d |})
      end
  end.

(** *** Concrete hosts, models and generators *)

Definition constant_model (y : float) : Model := {| predict := fun _ => Ok [y] |}.

Definition failing_model (msg : string) : Model := {| predict := fun _ => Raise msg |}.

Definition fixed_generator (u : float) : Generator := fun _ _ _ => u.

(** A generator that alternates between the two ends of the interval. *)
Definition alternating_generator : Generator :=
  fun k low high => if Nat.even k then low else high.

Definition clamp (lo hi v : Z) : Z := Z.max lo (Z.min hi v).

(** A browser in which the user has typed [typed label] into the
    integer controls (kept within the control's bounds), left the
    distance control alone, and pressed the button or not. *)
Definition typed_page (typed : string -> option Z) (artifact : result Model)
  (clicked : bool) : Host :=
  {| number_input_int := fun label lo hi v =>
       match typed label with Some z => clamp lo hi z | None => v end;
     number_input_float := fun _ _ _ v => v;
     selectbox_choice := fun label options =>
       match typed label with
       | Some z => if existsb (Z.eqb z) options then z else hd 0 options
       | None => hd 0 options
       end;
     slider_value := fun label lo hi v =>
       match typed label with Some z => clamp lo hi z | None => v end;
     button_clicked := fun _ => clicked;
     joblib_load := fun _ => artifact |}.

(** The page as first opened: nothing typed. *)
Definition fresh_page (artifact : result Model) (clicked : bool) : Host :=
  typed_page (fun _ => None) artifact clicked.

(** A second visitor's entries: other bedrooms, bathrooms, floors,
    garden and garage than the defaults. *)
Definition other_rooms (label : string) : option Z :=
  if String.eqb label "🛏 Bedrooms" then Some 5
  else if String.eqb label "🛁 Bathrooms" then Some 4
  else if String.eqb label "🏢 Floors" then Some 3
  else if String.eqb label "🌳 Has Garden?" then Some 1
  else if String.eqb label "🚗 Garage Size (Cars)" then Some 0
  else None.

Definition missing_artifact : result Model :=
  Raise "[Errno 2] No such file or directory: 'linear_regression_real_estate.joblib'".

Definition f300000 : float := Eval vm_compute in of_int 300000.

(** *** Two readings of the specification that the script does not meet *)

(** "Failure yields a permanent unavailable state ... model loading is
    not retried": once the first cycle of a process fails to load the
    artifact, no later cycle loads or predicts. *)
Definition load_failure_is_permanent (gen : Generator) (hs : list Host) : Prop :=
  forall h rest e,
    hs = h :: rest ->
    joblib_load h model_file = Raise e ->
    Forall (fun t => load_calls t = [] /\ predict_calls t = [])
           (tl (session gen hs 0)).

(** "Aborts only the current cycle's downstream chart/insight
    rendering": a failed prediction leaves the footer on the page. *)
Definition footer_survives_failed_prediction (gen : Generator) (h : Host) (d : nat) : Prop :=
  forall model e,
    joblib_load h model_file = Ok model ->
    button_clicked h "🔮 Predict Price" = true ->
    predict_first model (input_data (read_inputs h)) = Raise e ->
    footers (page gen h d) = [footer_html].

(* ================================================================== *)
(** ** Further vocabulary *)
(* ================================================================== *)

(** The idle prompt of line 169 is the page's only warning. *)
Definition warnings : list event -> list string :=
  collect (fun ev => match ev with Ui _ (st.warning body) => Some body | _ => None end).

(** The number of draws taken from the generator once a session has
    run: what the next cycle of the process would start from. *)
Fixpoint session_draws (gen : Generator) (hs : list Host) (d : nat) : nat :=
  match hs with
  | [] => d
  | h :: rest => session_draws gen rest (draws (snd (render gen h d)))
  end.

(** A model whose [predict] returns the array [ys] for every frame. *)
Definition array_model (ys : list float) : Model := {| predict := fun _ => Ok ys |}.

Definition f1_0 : float := Eval vm_compute in of_int 1.

(** 2^1000, far above any price and far below overflow. *)
Definition f2p1000 : float := Eval vm_compute in of_int (2 ^ 1000).


(** 1.5e308, a finite float: 1.2 times its product with 1.1 is not. *)
Definition f1_5e308 : float := Eval vm_compute in of_int (15 * 10 ^ 307).

(** The figure line 117 hands to [st.pyplot] when [set_ylim] has taken
    the limit as it is. *)
Definition drawn_chart (p u : float) : plt.Figure :=
  {| plt.figsize := (6, 4);
     plt.bars :=
       [ {| plt.label := "Predicted Price"; plt.height := p; plt.color := "#4CAF50" |};
         {| plt.label := "Benchmark Price"; plt.height := avg_price p u;
            plt.color := "#2196F3" |} ];
     plt.ylabel := "Price ($)";
     plt.title := "Predicted vs Benchmark Market Price";
     plt.ylim := Some (f0_0, axis_limit p u) |}.


(** A positive normal number: 53 significant bits, exponent within
    [lo, hi]. *)
Definition normal_pos (lo hi : Z) (x : float) : Prop :=
  exists m e,
    x = S754_finite false m e /\ 2 ^ 52 <= Zpos m < 2 ^ 53 /\ lo <= e <= hi.



(* ================================================================== *)
(** ** Proof automation *)
(* ================================================================== *)

(** Unfolds the script and its combinators, and nothing of the data
    (strings, floats, the insight list) it handles. *)
Ltac run_script :=
  cbv [render page estate_backend load_model page_setup sidebar page_header
       prediction_panel prediction_section run_prediction footer
       sidebar_number_input sidebar_number_input_float sidebar_selectbox
       sidebar_slider np_random_uniform bind ret record emit stop uncaught
       trace draws fst snd];
  cbn [app].

(* ================================================================== *)
(** * Properties *)
(* ================================================================== *)

(** ** Binary64 rounding *)

Section Rounding.

Lemma Zdigits2_log2 p : Zpos (digits2_pos p) = Z.log2 (Zpos p) + 1.
Proof.
  assert (E : forall q, digits2_pos q = Pos.size q)
    by (induction q; simpl; congruence).
  destruct p as [p|p|]; simpl; rewrite ?E; lia.
Qed.

Lemma Zdigits2_bounds p d :
  Zpos (digits2_pos p) = d -> 2 ^ (d - 1) <= Zpos p < 2 ^ d.
Proof.
  rewrite Zdigits2_log2. intros <-.
  replace (Z.log2 (Z.pos p) + 1 - 1) with (Z.log2 (Z.pos p)) by lia.
  replace (Z.log2 (Z.pos p) + 1) with (Z.succ (Z.log2 (Z.pos p))) by lia.
  apply Z.log2_spec. lia.
Qed.

Lemma Zdigits2_unique z d :
  0 < d -> 2 ^ (d - 1) <= z < 2 ^ d -> Zdigits2 z = d.
Proof.
  intros Hd Hz.
  assert (0 < z) by (pose proof (Z.pow_pos_nonneg 2 (d - 1)); lia).
  destruct z as [|p|p]; try lia. simpl. rewrite Zdigits2_log2.
  rewrite (Z.log2_unique (Zpos p) (d - 1)); try lia.
  replace (Z.succ (d - 1)) with d by lia. exact Hz.
Qed.

(** One step of the shifter halves the mantissa and remembers the bit
    that fell off. *)
Lemma shr_1_m mrs : 0 <= shr_m mrs -> shr_m (shr_1 mrs) = shr_m mrs / 2.
Proof.
  destruct mrs as [m r s]. simpl shr_m at 1 3. intros Hm.
  rewrite <- Z.div2_div.
  destruct m as [|[p|p|]|p]; try lia; reflexivity.
Qed.

Lemma shr_1_r mrs : 0 <= shr_m mrs -> shr_r (shr_1 mrs) = Z.odd (shr_m mrs).
Proof.
  destruct mrs as [m r s]. simpl. intros Hm.
  destruct m as [|[p|p|]|p]; try lia; reflexivity.
Qed.

Lemma shr_1_spec M k mrs :
  0 <= M -> 0 <= k -> shr_m mrs = M / 2 ^ k ->
  shr_m (shr_1 mrs) = M / 2 ^ (k + 1) /\
  (shr_r (shr_1 mrs) = true -> 2 ^ k <= M mod 2 ^ (k + 1)).
Proof.
  intros HM Hk Hm.
  assert (Hp : 0 < 2 ^ k) by (apply Z.pow_pos_nonneg; lia).
  assert (Hq : 0 <= shr_m mrs) by (rewrite Hm; apply Z.div_pos; lia).
  split.
  - rewrite shr_1_m, Hm by assumption.
    rewrite Z.pow_add_r, Z.pow_1_r by lia.
    rewrite Z.div_div; lia.
  - rewrite shr_1_r, Hm by assumption. intros Hodd.
    rewrite Z.pow_add_r, Z.pow_1_r by lia.
    rewrite Z.rem_mul_r by lia.
    rewrite Zmod_odd, Hodd.
    pose proof (Z.mod_pos_bound M (2 ^ k) Hp). lia.
Qed.

(** After [p] steps the mantissa is the quotient by [2^p], and the
    round bit is set only when the remainder is at least one half. *)
Lemma iter_shr_1_spec M (HM : 0 <= M) p :
  forall k mrs, 0 <= k -> shr_m mrs = M / 2 ^ k ->
  shr_m (iter_pos shr_1 p mrs) = M / 2 ^ (k + Zpos p) /\
  (shr_r (iter_pos shr_1 p mrs) = true ->
   2 ^ (k + Zpos p - 1) <= M mod 2 ^ (k + Zpos p)).
Proof.
  induction p as [p IH|p IH|]; intros k mrs Hk Hm; simpl iter_pos.
  - destruct (shr_1_spec M k mrs HM Hk Hm) as [H1 _].
    destruct (IH (k + 1) _ ltac:(lia) H1) as [H2 _].
    destruct (IH (k + 1 + Zpos p) _ ltac:(lia) H2) as [H3 H4].
    replace (k + Zpos p~1) with (k + 1 + Zpos p + Zpos p) by lia.
    split; [exact H3 | exact H4].
  - destruct (IH k _ Hk Hm) as [H2 _].
    destruct (IH (k + Zpos p) _ ltac:(lia) H2) as [H3 H4].
    replace (k + Zpos p~0) with (k + Zpos p + Zpos p) by lia.
    split; [exact H3 | exact H4].
  - destruct (shr_1_spec M k mrs HM Hk Hm) as [H1 H2].
    replace (k + 1 - 1) with k by lia. split; assumption.
Qed.

Lemma round_nearest_even_spec mrs :
  shr_m mrs <= round_nearest_even (shr_m mrs) (loc_of_shr_record mrs) <= shr_m mrs + 1 /\
  (shr_r mrs = false ->
   round_nearest_even (shr_m mrs) (loc_of_shr_record mrs) = shr_m mrs).
Proof.
  destruct mrs as [m [|] [|]]; simpl; try destruct (Z.even m);
    split; intros; try lia; try discriminate.
Qed.

(** Rounding an exact positive mantissa [M] of [d > 53] digits whose
    result is a normal number: the result is the quotient of [M] by
    [2^(d-53)] or its successor, it is the quotient when the remainder
    is below one half, and a carry out of the 53 bits moves to the next
    exponent. *)
Lemma binary_round_aux_normal s M ex d n :
  2 ^ (d - 1) <= M < 2 ^ d ->
  n = d - 53 -> 0 < n ->
  -1074 <= ex + n -> ex + n + 1 <= 971 ->
  exists r,
    M / 2 ^ n <= r <= M / 2 ^ n + 1 /\
    (2 * (M mod 2 ^ n) < 2 ^ n -> r = M / 2 ^ n) /\
    binary_round_aux prec emax s M ex loc_Exact =
      if r <? 2 ^ 53 then S754_finite s (Z.to_pos r) (ex + n)
      else S754_finite s (Z.to_pos (2 ^ 52)) (ex + n + 1).
Proof.
  intros HM Hn Hpos Hlo Hhi.
  assert (Hd : 0 < d) by lia.
  assert (H0 : 0 <= M) by (pose proof (Z.pow_pos_nonneg 2 (d - 1)); lia).
  unfold binary_round_aux, shr_fexp at 1.
  rewrite (Zdigits2_unique M d Hd HM).
  unfold fexp, emin, prec, emax.
  replace (Z.max (d + ex - 53) (3 - 1024 - 53) - ex) with n by lia.
  destruct n as [|p|p] eqn:En; try lia.
  unfold shr. simpl shr_record_of_loc.
  set (rec0 := {| shr_m := M; shr_r := false; shr_s := false |}).
  destruct (iter_shr_1_spec M H0 p 0 rec0 ltac:(lia)) as [Hq Hr].
  { simpl. rewrite Z.div_1_r. reflexivity. }
  rewrite Z.add_0_l in Hq, Hr.
  set (rec1 := iter_pos shr_1 p rec0) in *.
  destruct (round_nearest_even_spec rec1) as [Hb Hdown].
  set (r := round_nearest_even (shr_m rec1) (loc_of_shr_record rec1)) in *.
  rewrite Hq in Hb, Hdown.
  assert (Hq53 : 2 ^ 52 <= M / 2 ^ Zpos p < 2 ^ 53).
  { assert (E : d = Zpos p + 53) by lia. subst d.
    replace (Z.pos p + 53 - 1) with (52 + Zpos p) in HM by lia.
    rewrite !Z.pow_add_r in HM by lia.
    assert (0 < 2 ^ Zpos p) by (apply Z.pow_pos_nonneg; lia).
    split.
    - apply Z.div_le_lower_bound; lia.
    - apply Z.div_lt_upper_bound; lia. }
  exists r. split; [exact Hb|]. split.
  { intros Hhalf. apply Hdown.
    destruct (shr_r rec1); [|reflexivity].
    specialize (Hr eq_refl).
    assert (E : 2 ^ Zpos p = 2 * 2 ^ (Zpos p - 1)).
    { rewrite <- Z.pow_succ_r by lia. f_equal. lia. }
    lia. }
  destruct (Z.ltb_spec r (2 ^ 53)) as [Hlt|Hge].
  - unfold shr_fexp. rewrite (Zdigits2_unique r 53) by lia.
    unfold fexp, emin.
    replace (Z.max (53 + (ex + Zpos p) - 53) (3 - 1024 - 53) - (ex + Zpos p)) with 0 by lia.
    unfold shr. simpl shr_record_of_loc. cbv beta iota. simpl shr_m.
    destruct r as [|r'|r'] eqn:Er; try lia.
    simpl Z.to_pos.
    destruct (Z.leb_spec (ex + Zpos p) (1024 - 53)); [reflexivity | lia].
  - assert (Er : r = 2 ^ 53) by lia.
    rewrite Er. unfold shr_fexp.
    replace (Zdigits2 (2 ^ 53)) with 54 by reflexivity.
    unfold fexp, emin.
    replace (Z.max (54 + (ex + Zpos p) - 53) (3 - 1024 - 53) - (ex + Zpos p)) with 1 by lia.
    unfold shr. simpl shr_record_of_loc. cbv beta iota.
    change (shr_m (iter_pos shr_1 1 {| shr_m := 2 ^ 53; shr_r := false; shr_s := false |}))
      with (2 ^ 52).
    change (2 ^ 52) with (Zpos (Z.to_pos (2 ^ 52))) at 1. cbv beta iota.
    destruct (Z.leb_spec (ex + Zpos p + 1) (1024 - 53)); [reflexivity | lia].
Qed.

End Rounding.

(** ** Binary64 comparison and the benchmark interval *)

Section Comparison.

Lemma compare_cont_Eq_Z a b : Pos.compare_cont Eq a b = (Zpos a ?= Zpos b).
Proof. reflexivity. Qed.

Lemma fleb_finite_pos m1 e1 m2 e2 :
  fleb (S754_finite false m1 e1) (S754_finite false m2 e2) = true <->
  e1 < e2 \/ (e1 = e2 /\ Zpos m1 <= Zpos m2).
Proof.
  unfold fleb, SFleb, SFcompare. rewrite compare_cont_Eq_Z.
  destruct (Z.compare_spec e1 e2); destruct (Z.compare_spec (Zpos m1) (Zpos m2));
    split; intros; try discriminate; try reflexivity; try lia.
Qed.

(** A valid float between 0.9 and 1.1 is positive, finite and normal,
    in one of the two binades [0.5, 1) and [1, 2). *)
Lemma draw_shape u :
  valid u = true -> between f0_9 f1_1 u = true ->
  exists m,
    (u = S754_finite false m (-53) /\ 8106479329266893 <= Zpos m < 2 ^ 53) \/
    (u = S754_finite false m (-52) /\ 2 ^ 52 <= Zpos m <= 4953959590107546).
Proof.
  unfold valid, between, fleb. intros Hv Hb.
  apply andb_true_iff in Hb. destruct Hb as [Hlo Hhi].
  destruct u as [[|]|[|]| |[|] m e]; try discriminate.
  exists m.
  unfold SFleb, SFcompare, f0_9, f1_1 in Hlo, Hhi.
  simpl in Hv. unfold bounded, canonical_mantissa, fexp, emin, prec, emax in Hv.
  apply andb_true_iff in Hv. destruct Hv as [Hc _].
  apply Z.eqb_eq in Hc.
  rewrite compare_cont_Eq_Z in Hlo, Hhi.
  destruct (Z.compare_spec (-53) e) as [E|E|E]; try discriminate;
  destruct (Z.compare_spec e (-52)) as [E'|E'|E']; try discriminate; try lia.
  - left. subst e. split; [reflexivity|].
    assert (Hd : Zpos (digits2_pos m) = 53) by lia.
    apply Zdigits2_bounds in Hd. change (53 - 1) with 52 in Hd.
    destruct (Z.compare_spec 8106479329266893 (Zpos m)); try discriminate; lia.
  - right. subst e. split; [reflexivity|].
    assert (Hd : Zpos (digits2_pos m) = 53) by lia.
    apply Zdigits2_bounds in Hd. change (53 - 1) with 52 in Hd.
    destruct (Z.compare_spec (Zpos m) 4953959590107546); try discriminate; lia.
Qed.

(** 500000.0 times any valid factor between 0.9 and 1.1 rounds to a
    value between 450000.0 and 550000.0. *)
Lemma scaled_500000_bounds u :
  valid u = true -> between f0_9 f1_1 u = true ->
  between f450000 f550000 (fmul f500000 u) = true.
Proof.
  intros Hv Hb. destruct (draw_shape u Hv Hb) as [m [[-> Hm]|[-> Hm]]];
  unfold between, fmul, f500000, SFmul; cbv [xorb];
  rewrite Pos2Z.inj_mul.
  - destruct (binary_round_aux_normal false (8589934592000000 * Zpos m) (-34 + -53) 106 53)
      as (r & Hr & _ & ->); try lia.
    assert (Hq : 7730941132800000 <= 8589934592000000 * Zpos m / 2 ^ 53 < 8589934592000000).
    { split; [apply Z.div_le_lower_bound | apply Z.div_lt_upper_bound]; lia. }
    destruct (Z.ltb_spec r (2 ^ 53)); [|lia].
    apply andb_true_iff. unfold f450000, f550000.
    destruct r as [|r|r]; try lia. simpl Z.to_pos.
    rewrite !fleb_finite_pos. lia.
  - destruct (Z_lt_le_dec (8589934592000000 * Zpos m) (2 ^ 105)) as [Hs|Hs].
    + destruct (binary_round_aux_normal false (8589934592000000 * Zpos m) (-34 + -52) 105 52)
        as (r & Hr & _ & ->); try lia.
      assert (Hq : 8589934592000000 <= 8589934592000000 * Zpos m / 2 ^ 52).
      { apply Z.div_le_lower_bound; lia. }
      apply andb_true_iff. unfold f450000, f550000.
      destruct (Z.ltb_spec r (2 ^ 53)).
      * destruct r as [|r|r]; try lia. simpl Z.to_pos.
        rewrite !fleb_finite_pos. lia.
      * simpl Z.to_pos. rewrite !fleb_finite_pos. lia.
    + destruct (binary_round_aux_normal false (8589934592000000 * Zpos m) (-34 + -52) 106 53)
        as (r & Hr & Hdown & ->); try lia.
      assert (Hq : 2 ^ 52 <= 8589934592000000 * Zpos m / 2 ^ 53 <= 4724464025600000).
      { split; [apply Z.div_le_lower_bound; lia|].
        assert (8589934592000000 * Zpos m / 2 ^ 53 < 4724464025600000 + 1); [|lia].
        apply Z.div_lt_upper_bound; lia. }
      assert (Hr' : r <= 4724464025600000).
      { destruct (Z.eq_dec (8589934592000000 * Zpos m / 2 ^ 53) 4724464025600000) as [E|E]; [|lia].
        rewrite Hdown; [lia|].
        pose proof (Z.div_mod (8589934592000000 * Zpos m) (2 ^ 53) ltac:(lia)) as D.
        rewrite E in D. lia. }
      apply andb_true_iff. unfold f450000, f550000.
      destruct (Z.ltb_spec r (2 ^ 53)); [|lia].
      destruct r as [|r|r]; try lia. simpl Z.to_pos.
      rewrite !fleb_finite_pos. lia.
Qed.

End Comparison.

(** ** Executing the script *)

Section Execution.

Variable gen : Generator.
Variable h : Host.
Variable d : nat.

(** A loop whose body emits one event per item emits them in order. *)
Lemma for_each_appends {A : Type} (g : A -> event) (body : A -> Script unit) :
  (forall x s, body x s =
     (Returned tt, {| trace := (trace s ++ [g x])%list; draws := draws s |})) ->
  forall l s,
    for_each l body s =
    (Returned tt, {| trace := (trace s ++ map g l)%list; draws := draws s |}).
Proof.
  intros Hbody l. induction l as [|x l IH]; intros [t k]; simpl.
  - unfold ret. rewrite app_nil_r. reflexivity.
  - unfold bind. rewrite Hbody, IH. simpl.
    rewrite <- app_assoc. reflexivity.
Qed.

(** The artifact does not load: the message, then the footer. *)
Lemma render_load_failed e :
  joblib_load h model_file = Raise e ->
  render gen h d =
  (Returned tt,
   {| trace := (opening ++ [Ui st.main (st.error (load_failure_message e))] ++ closing)%list;
      draws := d |}).
Proof.
  intros Hload. run_script. rewrite Hload. reflexivity.
Qed.

(** The artifact loads and the button is not pressed: the prompt. *)
Lemma render_idle model :
  joblib_load h model_file = Ok model ->
  button_clicked h "🔮 Predict Price" = false ->
  render gen h d =
  (Returned tt,
   {| trace :=
        (opening ++
         [ Ui st.sidebar (st.button "🔮 Predict Price");
           Ui st.main
             (st.warning "👈 Enter details on the left panel and click **Predict Price**.") ]
         ++ closing)%list;
      draws := d |}).
Proof.
  intros Hload Hidle. run_script. rewrite Hload. run_script. rewrite Hidle. reflexivity.
Qed.

(** The button is pressed and the prediction raises: the message, and
    the execution ends there. *)
Lemma render_prediction_failed model e :
  joblib_load h model_file = Ok model ->
  button_clicked h "🔮 Predict Price" = true ->
  predict_first model (input_data (read_inputs h)) = Raise e ->
  render gen h d =
  (Halted,
   {| trace :=
        (opening ++
         [ Ui st.sidebar (st.button "🔮 Predict Price");
           PredictCall (input_data (read_inputs h));
           Ui st.main (st.error ("Prediction failed: " ++ e)) ])%list;
      draws := d |}).
Proof.
  intros Hload Hclick Hfail. run_script. rewrite Hload. run_script. rewrite Hclick.
  fold (read_inputs h). rewrite Hfail. reflexivity.
Qed.

(** The button is pressed, the prediction returns [p] and [set_ylim]
    accepts the limit: the result, with the generator's next draw, then
    the footer. *)
Lemma render_prediction_drawn model p fig :
  joblib_load h model_file = Ok model ->
  button_clicked h "🔮 Predict Price" = true ->
  predict_first model (input_data (read_inputs h)) = Ok p ->
  chart p (gen d f0_9 f1_1) = Ok fig ->
  render gen h d =
  (Returned tt,
   {| trace := (opening ++ result_events (read_inputs h) p fig ++ closing)%list;
      draws := S d |}).
Proof.
  intros Hload Hclick Hok Hfig. run_script. rewrite Hload. run_script. rewrite Hclick.
  fold (read_inputs h). rewrite Hok. rewrite Hfig.
  rewrite (for_each_appends (fun tip => Ui st.main (st.write ("- " ++ tip))))
    by (intros x [t k]; reflexivity).
  unfold result_events, started_events. cbn [trace draws app].
  rewrite <- !app_assoc. reflexivity.
Qed.

(** The prediction returns [p] and [set_ylim] raises: the price, the
    chart header and the draw are on the page, and the execution ends
    at line 115 with the exception. *)
Lemma render_prediction_chart_failed model p msg :
  joblib_load h model_file = Ok model ->
  button_clicked h "🔮 Predict Price" = true ->
  predict_first model (input_data (read_inputs h)) = Ok p ->
  chart p (gen d f0_9 f1_1) = Raise msg ->
  render gen h d =
  (Raised msg,
   {| trace := (opening ++ started_events (read_inputs h) p)%list;
      draws := S d |}).
Proof.
  intros Hload Hclick Hok Hfig. run_script. rewrite Hload. run_script. rewrite Hclick.
  fold (read_inputs h). rewrite Hok. rewrite Hfig. reflexivity.
Qed.

End Execution.

(** ** Reading pages *)

Section Reading.

Context {A : Type} (f : event -> option A).

Lemma collect_app (t1 t2 : list event) :
  collect f (t1 ++ t2) = (collect f t1 ++ collect f t2)%list.
Proof.
  induction t1 as [|ev t1 IH]; simpl; [reflexivity|].
  destruct (f ev); simpl; rewrite IH; reflexivity.
Qed.

Lemma collect_map_none {B : Type} (g : B -> event) (l : list B) :
  (forall x, f (g x) = None) -> collect f (map g l) = [].
Proof.
  intros Hg. induction l as [|x l IH]; simpl; [reflexivity|].
  rewrite Hg. exact IH.
Qed.

Lemma collect_map_some {B : Type} (g : B -> event) (k : B -> A) (l : list B) :
  (forall x, f (g x) = Some (k x)) -> collect f (map g l) = map k l.
Proof.
  intros Hg. induction l as [|x l IH]; simpl; [reflexivity|].
  rewrite Hg, IH. reflexivity.
Qed.

End Reading.

Section ResultPage.

Variables (i : Inputs) (p : float) (fig : plt.Figure).

(** Reads the events of a completed prediction with one of the
    [collect] functions, once that function is unfolded. *)
Ltac read_result :=
  unfold result_events;
  rewrite !collect_app;
  rewrite collect_map_none by reflexivity;
  reflexivity.

Lemma charts_result : charts (result_events i p fig) = [fig].
Proof. unfold charts. read_result. Qed.

Lemma predict_calls_result : predict_calls (result_events i p fig) = [input_data i].
Proof. unfold predict_calls. read_result. Qed.

Lemma uniform_calls_result : uniform_calls (result_events i p fig) = [(f0_9, f1_1)].
Proof. unfold uniform_calls. read_result. Qed.

Lemma prices_result : prices (result_events i p fig) = [p].
Proof. unfold prices. read_result. Qed.

Lemma errors_result : errors (result_events i p fig) = [].
Proof. unfold errors. read_result. Qed.

Lemma shown_insights_result : shown_insights (result_events i p fig) = insights i.
Proof.
  unfold shown_insights, result_events. rewrite !collect_app.
  rewrite (collect_map_some _ _ (fun tip => tip)) by reflexivity.
  rewrite map_id. simpl. apply app_nil_r.
Qed.

End ResultPage.

(** ** Messages *)

Lemma message_contained prefix e : contains e (prefix ++ e).
Proof.
  exists prefix, EmptyString. f_equal.
  induction e as [|c s IH]; [reflexivity|]. simpl. rewrite <- IH. reflexivity.
Qed.

(** ** Insight derivation *)

Section Insights.

(** The derived list, rule by rule. *)
Lemma insights_by_rule i :
  insights i =
  [ theme_text (if Location_Score i <? 5 then BelowAverageLocation else GoodLocation);
    theme_text (if Has_Pool i =? 1 then PoolLuxury else SuggestPool);
    theme_text (if Year_Built i <? 2000 then OlderBuilding else ModernBuilding);
    theme_text (if fltb f15 (Distance_to_Center i) then FarFromCenter else GoodProximity);
    theme_text (if Square_Feet i <? 800 then SmallProperty else GoodSpace) ].
Proof.
  unfold insights.
  destruct (Location_Score i <? 5), (Has_Pool i =? 1), (Year_Built i <? 2000),
    (fltb f15 (Distance_to_Center i)), (Square_Feet i <? 800); reflexivity.
Qed.

(** The ten sentences are pairwise different, so each carries its theme. *)
Lemma theme_of_text t : theme_of (theme_text t) = Some t.
Proof. destruct t; vm_compute; reflexivity. Qed.

Lemma themes_by_rule i :
  map theme_of (insights i) =
  [ Some (if Location_Score i <? 5 then BelowAverageLocation else GoodLocation);
    Some (if Has_Pool i =? 1 then PoolLuxury else SuggestPool);
    Some (if Year_Built i <? 2000 then OlderBuilding else ModernBuilding);
    Some (if fltb f15 (Distance_to_Center i) then FarFromCenter else GoodProximity);
    Some (if Square_Feet i <? 800 then SmallProperty else GoodSpace) ].
Proof.
  rewrite insights_by_rule. cbn [map]. rewrite !theme_of_text. reflexivity.
Qed.

Lemma theme_at_map k i : theme_at k i = match nth_error (map theme_of (insights i)) k with
                                        | Some o => o
                                        | None => None
                                        end.
Proof.
  unfold theme_at. rewrite nth_error_map.
  destruct (nth_error (insights i) k); reflexivity.
Qed.

(** Each list has five entries, one per rule, whatever the record. *)
Lemma rules_in_order i :
  map rule_of_insight (insights i) =
  [Some Location; Some Pool; Some Age; Some Distance; Some Size].
Proof.
  unfold rule_of_insight. rewrite <- (map_map theme_of (option_map rule_of)).
  rewrite themes_by_rule.
  destruct (Location_Score i <? 5), (Has_Pool i =? 1), (Year_Built i <? 2000),
    (fltb f15 (Distance_to_Center i)), (Square_Feet i <? 800); reflexivity.
Qed.

End Insights.

(** C1.  For every feature record whose ten fields lie within the
    declared ranges, insight derivation yields exactly five insights,
    and the rules they belong to are, in this order, Location, Pool,
    Age, Distance, Size: one insight per rule, never none and never two. *)
Theorem insights_one_per_rule (i : Inputs) :
  in_declared_ranges i ->
  List.length (insights i) = 5%nat /\
  map rule_of_insight (insights i) =
    [Some Location; Some Pool; Some Age; Some Distance; Some Size].
Proof.
  intros _. split.
  - rewrite insights_by_rule. reflexivity.
  - apply rules_in_order.
Qed.

Lemma insights_one_per_rule_defaults :
  in_declared_ranges default_inputs /\
  List.length (insights default_inputs) = 5%nat /\
  map rule_of_insight (insights default_inputs) =
    [Some Location; Some Pool; Some Age; Some Distance; Some Size].
Proof.
  assert (H : in_declared_ranges default_inputs).
  { unfold in_declared_ranges; simpl. repeat split; try lia; auto. }
  split; [exact H | apply (insights_one_per_rule default_inputs H)].
Defined.

(** C2.  Each rule uses its stated threshold, strictly: the location
    insight is the below-average one exactly when the score is below 5
    (so 4 gives below-average and 5 gives good location); the age
    insight is the older-building one exactly when the year is below
    2000 (2000 gives modern); the distance insight is the far one
    exactly when the distance exceeds 15 (15 gives good proximity); the
    size insight is the small one exactly when the area is below 800
    (800 gives good space); and the pool insight is the luxury one
    exactly when [Has_Pool == 1]. *)
Theorem insight_thresholds (i : Inputs) :
  (theme_at 0 i = Some BelowAverageLocation <-> Location_Score i < 5) /\
  (theme_at 0 i = Some GoodLocation <-> 5 <= Location_Score i) /\
  (theme_at 1 i = Some PoolLuxury <-> Has_Pool i = 1) /\
  (theme_at 1 i = Some SuggestPool <-> Has_Pool i <> 1) /\
  (theme_at 2 i = Some OlderBuilding <-> Year_Built i < 2000) /\
  (theme_at 2 i = Some ModernBuilding <-> 2000 <= Year_Built i) /\
  (theme_at 3 i = Some FarFromCenter <-> fltb f15 (Distance_to_Center i) = true) /\
  (theme_at 3 i = Some GoodProximity <-> fltb f15 (Distance_to_Center i) = false) /\
  (theme_at 4 i = Some SmallProperty <-> Square_Feet i < 800) /\
  (theme_at 4 i = Some GoodSpace <-> 800 <= Square_Feet i) /\
  (Location_Score i = 5 -> theme_at 0 i = Some GoodLocation) /\
  (Location_Score i = 4 -> theme_at 0 i = Some BelowAverageLocation) /\
  (Year_Built i = 2000 -> theme_at 2 i = Some ModernBuilding) /\
  (Distance_to_Center i = f15 -> theme_at 3 i = Some GoodProximity) /\
  (Square_Feet i = 800 -> theme_at 4 i = Some GoodSpace).
Proof.
  rewrite !theme_at_map, themes_by_rule. cbn [nth_error].
  repeat split; intros H;
    repeat match goal with
    | H : context [if ?c then _ else _] |- _ => destruct c eqn:?
    | |- context [if ?c then _ else _] => destruct c eqn:?
    end;
    try discriminate; try reflexivity; try congruence;
    repeat match goal with
    | E : (_ <? _) = true |- _ => apply Z.ltb_lt in E
    | E : (_ <? _) = false |- _ => apply Z.ltb_ge in E
    | E : (_ =? _) = true |- _ => apply Z.eqb_eq in E
    | E : (_ =? _) = false |- _ => apply Z.eqb_neq in E
    end;
    try lia.
  - rewrite H in *. discriminate.
Qed.

(** ** The ways a render cycle can go *)

Section Cycle.

Variables (gen : Generator) (h : Host) (d : nat).

Lemma cycle_exists : exists k, cycle_is h k.
Proof.
  destruct (joblib_load h model_file) as [model|e] eqn:Hload.
  - destruct (button_clicked h "🔮 Predict Price") eqn:Hclick.
    + destruct (predict_first model (input_data (read_inputs h))) as [p|e] eqn:Hp.
      * exists (PredictionOk model p). simpl. rewrite Hload. auto.
      * exists (PredictionFailed model e). simpl. rewrite Hload. auto.
    + exists (Idle model). simpl. rewrite Hload. auto.
  - exists (LoadFailed e). exact Hload.
Qed.

Lemma render_cycle k : cycle_is h k -> render gen h d = cycle_render gen h d k.
Proof.
  destruct k as [e|model|model e|model p]; simpl.
  - apply render_load_failed.
  - intros [Hl Hc]. exact (render_idle gen h d model Hl Hc).
  - intros (Hl & Hc & Hp). exact (render_prediction_failed gen h d model e Hl Hc Hp).
  - intros (Hl & Hc & Hp).
    destruct (chart p (gen d f0_9 f1_1)) as [fig|msg] eqn:Hfig.
    + exact (render_prediction_drawn gen h d model p fig Hl Hc Hp Hfig).
    + exact (render_prediction_chart_failed gen h d model p msg Hl Hc Hp Hfig).
Qed.

Lemma page_cycle k :
  cycle_is h k -> page gen h d = trace (snd (cycle_render gen h d k)).
Proof. intros Hk. unfold page. rewrite (render_cycle k Hk). reflexivity. Qed.

(** Reads a page with one of the [collect] functions, kind by kind. *)
Ltac read_cycle k Hk :=
  rewrite (page_cycle k Hk);
  destruct k; cbn [cycle_render];
  try match goal with |- context [chart ?p ?u] => destruct (chart p u) end;
  cbn [snd trace];
  rewrite ?collect_app; unfold result_events; rewrite ?collect_app;
  rewrite ?collect_map_none by reflexivity; reflexivity.

(** Every cycle loads the artifact exactly once, first thing. *)
Lemma load_calls_page : load_calls (page gen h d) = [model_file].
Proof.
  destruct cycle_exists as [k Hk]. unfold load_calls. read_cycle k Hk.
Qed.

Lemma errors_cycle k :
  cycle_is h k ->
  errors (page gen h d) =
  match k with
  | LoadFailed e => [load_failure_message e]
  | PredictionFailed _ e => ["Prediction failed: " ++ e]
  | _ => []
  end.
Proof. intros Hk. unfold errors. read_cycle k Hk. Qed.

Lemma warnings_cycle k :
  cycle_is h k ->
  warnings (page gen h d) =
  match k with
  | Idle _ => ["👈 Enter details on the left panel and click **Predict Price**."]
  | _ => []
  end.
Proof. intros Hk. unfold warnings. read_cycle k Hk. Qed.

(** The price is on the page as soon as the prediction has returned. *)
Lemma prices_cycle k :
  cycle_is h k ->
  prices (page gen h d) = match k with PredictionOk _ p => [p] | _ => [] end.
Proof. intros Hk. unfold prices. read_cycle k Hk. Qed.

Lemma uniform_calls_cycle k :
  cycle_is h k ->
  uniform_calls (page gen h d) =
  match k with PredictionOk _ _ => [(f0_9, f1_1)] | _ => [] end.
Proof. intros Hk. unfold uniform_calls. read_cycle k Hk. Qed.

Lemma buttons_cycle k :
  cycle_is h k ->
  buttons (page gen h d) =
  match k with LoadFailed _ => [] | _ => ["🔮 Predict Price"] end.
Proof. intros Hk. unfold buttons. read_cycle k Hk. Qed.

Lemma predict_calls_cycle k :
  cycle_is h k ->
  predict_calls (page gen h d) =
  match k with
  | PredictionFailed _ _ | PredictionOk _ _ => [input_data (read_inputs h)]
  | _ => []
  end.
Proof. intros Hk. unfold predict_calls. read_cycle k Hk. Qed.

(** Whatever is submitted for prediction is the record built from the
    controls in this cycle. *)
Lemma predict_calls_page :
  Forall (fun X => X = input_data (read_inputs h)) (predict_calls (page gen h d)).
Proof.
  destruct cycle_exists as [k Hk]. rewrite (predict_calls_cycle k Hk).
  destruct k; repeat constructor.
Qed.

(** The chart, the insights, the recommendation and the footer of a
    prediction that returned are on the page exactly when [set_ylim]
    accepted the limit. *)
Lemma charts_cycle k :
  cycle_is h k ->
  charts (page gen h d) =
  match k with
  | PredictionOk _ p =>
      match chart p (gen d f0_9 f1_1) with Ok fig => [fig] | Raise _ => [] end
  | _ => []
  end.
Proof. intros Hk. unfold charts. read_cycle k Hk. Qed.

Lemma recommendations_cycle k :
  cycle_is h k ->
  recommendations (page gen h d) =
  match k with
  | PredictionOk _ p =>
      match chart p (gen d f0_9 f1_1) with Ok _ => [final_message] | Raise _ => [] end
  | _ => []
  end.
Proof. intros Hk. unfold recommendations. read_cycle k Hk. Qed.

Lemma footers_cycle k :
  cycle_is h k ->
  footers (page gen h d) =
  match k with
  | PredictionFailed _ _ => []
  | PredictionOk _ p =>
      match chart p (gen d f0_9 f1_1) with Ok _ => [footer_html] | Raise _ => [] end
  | _ => [footer_html]
  end.
Proof. intros Hk. unfold footers. read_cycle k Hk. Qed.

Lemma shown_insights_cycle k :
  cycle_is h k ->
  shown_insights (page gen h d) =
  match k with
  | PredictionOk _ p =>
      match chart p (gen d f0_9 f1_1) with
      | Ok _ => insights (read_inputs h)
      | Raise _ => []
      end
  | _ => []
  end.
Proof.
  intros Hk. rewrite (page_cycle k Hk). unfold shown_insights.
  destruct k as [e|model|model e|model p]; cbn [cycle_render];
    try (cbn [snd trace]; rewrite !collect_app; reflexivity).
  destruct (chart p (gen d f0_9 f1_1)) as [fig|msg]; cbn [snd trace];
    rewrite !collect_app; fold shown_insights.
  - rewrite shown_insights_result.
    change (shown_insights opening) with (@nil string).
    change (shown_insights closing) with (@nil string).
    apply app_nil_r.
  - reflexivity.
Qed.

Lemma outcome_cycle k :
  cycle_is h k ->
  fst (render gen h d) =
  match k with
  | PredictionFailed _ _ => Halted
  | PredictionOk _ p =>
      match chart p (gen d f0_9 f1_1) with
      | Ok _ => Returned tt
      | Raise msg => Raised msg
      end
  | _ => Returned tt
  end.
Proof.
  intros Hk. rewrite (render_cycle k Hk).
  destruct k; cbn [cycle_render]; try reflexivity.
  destruct (chart p (gen d f0_9 f1_1)); reflexivity.
Qed.

(** A cycle that does not reach the benchmark leaves the generator
    where it was; a prediction that returned advances it by one draw,
    whether or not the chart is drawn afterwards. *)
Lemma draws_cycle k :
  cycle_is h k ->
  draws (snd (render gen h d)) =
  match k with PredictionOk _ _ => S d | _ => d end.
Proof.
  intros Hk. rewrite (render_cycle k Hk).
  destruct k; cbn [cycle_render]; try reflexivity.
  destruct (chart p (gen d f0_9 f1_1)); reflexivity.
Qed.

Lemma opening_cycle k :
  cycle_is h k -> exists rest, page gen h d = (opening ++ rest)%list.
Proof.
  intros Hk. rewrite (page_cycle k Hk).
  destruct k; cbn [cycle_render];
    try match goal with |- context [chart ?p ?u] => destruct (chart p u) end;
    cbn [snd trace]; eexists; reflexivity.
Qed.

End Cycle.

(** ** Input collection *)

Section InputCollection.


Lemma declared_ranges_of_frame i :
  in_declared_ranges i -> feature_record_in_ranges (input_data i).
Proof.
  intros (H1 & H2 & H3 & H4 & H5 & H6 & H7 & H8 & H9 & H10).
  unfold feature_record_in_ranges, int_field, flag_field, float_field.
  repeat split; try reflexivity; eexists; (split; [reflexivity | assumption]).
Qed.

(** Controls that honour their bounds yield a record within the
    declared ranges: the bounds and initial values of lines 32-41 are
    the declared ones. *)
Lemma read_inputs_in_ranges h : bounded_controls h -> in_declared_ranges (read_inputs h).
Proof.
  intros [Hint Hfloat Hsel Hslider].
  unfold in_declared_ranges, read_inputs; simpl.
  repeat split; try (apply Hint; lia); try (apply Hslider; lia).
  - destruct (Hsel "🌳 Has Garden?" 0 [1]) as [E|[E|[]]]; auto.
  - destruct (Hsel "🏊 Has Pool?" 0 [1]) as [E|[E|[]]]; auto.
  - apply Hfloat. reflexivity.
Qed.

Lemma read_inputs_untouched h : untouched h -> read_inputs h = default_inputs.
Proof.
  intros [Hint Hfloat Hsel Hslider].
  unfold read_inputs, default_inputs.
  rewrite !Hint, !Hsel, Hslider, Hfloat. reflexivity.
Qed.

Lemma clamp_bounded lo hi v z : lo <= v <= hi -> lo <= clamp lo hi z <= hi.
Proof. unfold clamp. lia. Qed.

Lemma typed_page_bounded typed artifact clicked :
  bounded_controls (typed_page typed artifact clicked).
Proof.
  constructor; intros;
    cbn [typed_page number_input_int number_input_float selectbox_choice slider_value].
  - destruct (typed label); [eapply clamp_bounded; eassumption | assumption].
  - assumption.
  - destruct (typed label) as [z|]; [|left; reflexivity].
    destruct (existsb (Z.eqb z) (o :: os)) eqn:E; [|left; reflexivity].
    apply existsb_exists in E. destruct E as (x & Hin & Hx).
    apply Z.eqb_eq in Hx. subst x. exact Hin.
  - destruct (typed label); [eapply clamp_bounded; eassumption | assumption].
Qed.

Lemma fresh_page_untouched artifact clicked : untouched (fresh_page artifact clicked).
Proof. constructor; reflexivity. Qed.

End InputCollection.

(** C9.  When the sidebar controls honour their bounds (the toolkit's
    contract), the feature record built in a cycle has every field
    within its declared range, any record submitted for prediction in
    that cycle is this record, and on an untouched page it is the record
    of declared defaults (1500, 3, 2, 1, 2010, 0, 0, 1, 7, 5.0).  The
    prediction step itself checks nothing. *)
Theorem submitted_record_in_ranges (gen : Generator) (h : Host) (d : nat) :
  bounded_controls h ->
  feature_record_in_ranges (input_data (read_inputs h)) /\
  Forall (fun X => X = input_data (read_inputs h)) (predict_calls (page gen h d)) /\
  (untouched h -> input_data (read_inputs h) = input_data default_inputs).
Proof.
  intros Hb. split; [|split].
  - apply declared_ranges_of_frame, read_inputs_in_ranges, Hb.
  - apply predict_calls_page.
  - intros Hu. rewrite (read_inputs_untouched h Hu). reflexivity.
Qed.

Lemma submitted_record_on_fresh_page :
  bounded_controls (fresh_page (Ok (constant_model f300000)) true) /\
  predict_calls (page (fixed_generator f0_9) (fresh_page (Ok (constant_model f300000)) true) 0)
    = [input_data default_inputs] /\
  feature_record_in_ranges
    (input_data (read_inputs (fresh_page (Ok (constant_model f300000)) true))).
Proof.
  pose proof (typed_page_bounded (fun _ => None) (Ok (constant_model f300000)) true) as Hb.
  split; [exact Hb|]. split; [vm_compute; reflexivity|].
  exact (proj1 (submitted_record_in_ranges (fixed_generator f0_9)
                  (fresh_page (Ok (constant_model f300000)) true) 0 Hb)).
Defined.

(** ** Binary64 facts for the chart *)

Section Chart.

Lemma fmul_comm x y : fmul x y = fmul y x.
Proof.
  unfold fmul, SFmul.
  destruct x as [sx|sx| |sx mx ex], y as [sy|sy| |sy my ey];
    try reflexivity; try (rewrite xorb_comm; reflexivity).
  rewrite (xorb_comm sx sy), (Pos.mul_comm mx my), (Z.add_comm ex ey). reflexivity.
Qed.




(** On two values Python's [max] returns the second only when it
    compares greater than the first. *)
Lemma py_max_pair p b : py_max [p; b] = if fltb p b then b else p.
Proof. reflexivity. Qed.


End Chart.

Section Axis.

(** The product of two positive normal numbers, away from underflow and
    overflow, is a positive normal number; its exponent is the sum of
    the exponents plus 52, 53 or 54, and in the first case its mantissa
    is at least the exact quotient. *)
Lemma fmul_normal_pos mx ex my ey :
  2 ^ 52 <= Zpos mx < 2 ^ 53 ->
  2 ^ 52 <= Zpos my < 2 ^ 53 ->
  -1074 <= ex + ey + 52 -> ex + ey + 54 <= 971 ->
  exists r e,
    fmul (S754_finite false mx ex) (S754_finite false my ey) = S754_finite false r e /\
    2 ^ 52 <= Zpos r < 2 ^ 53 /\
    ((e = ex + ey + 52 /\ Zpos mx * Zpos my / 2 ^ 52 <= Zpos r) \/
     ex + ey + 53 <= e <= ex + ey + 54).
Proof.
  intros Hx Hy Hlo Hhi.
  unfold fmul, SFmul. cbv [xorb]. rewrite Pos2Z.inj_mul.
  assert (HM : 2 ^ 104 <= Zpos mx * Zpos my < 2 ^ 106) by nia.
  destruct (Z_lt_le_dec (Zpos mx * Zpos my) (2 ^ 105)) as [Hs|Hs].
  - destruct (binary_round_aux_normal false (Zpos mx * Zpos my) (ex + ey) 105 52)
      as (r & Hr & _ & ->); try lia.
    assert (Hq : 2 ^ 52 <= Zpos mx * Zpos my / 2 ^ 52 < 2 ^ 53).
    { split; [apply Z.div_le_lower_bound | apply Z.div_lt_upper_bound]; lia. }
    destruct (Z.ltb_spec r (2 ^ 53)).
    + destruct r as [|r|r]; try lia. simpl Z.to_pos.
      exists r, (ex + ey + 52). split; [reflexivity|]. split; [lia|]. left. lia.
    + exists (Z.to_pos (2 ^ 52)), (ex + ey + 52 + 1).
      split; [reflexivity|]. split; [simpl; lia|]. right. lia.
  - destruct (binary_round_aux_normal false (Zpos mx * Zpos my) (ex + ey) 106 53)
      as (r & Hr & _ & ->); try lia.
    assert (Hq : 2 ^ 52 <= Zpos mx * Zpos my / 2 ^ 53 < 2 ^ 53).
    { split; [apply Z.div_le_lower_bound | apply Z.div_lt_upper_bound]; lia. }
    destruct (Z.ltb_spec r (2 ^ 53)).
    + destruct r as [|r|r]; try lia. simpl Z.to_pos.
      exists r, (ex + ey + 53). split; [reflexivity|]. split; [lia|]. right. lia.
    + exists (Z.to_pos (2 ^ 52)), (ex + ey + 53 + 1).
      split; [reflexivity|]. split; [simpl; lia|]. right. lia.
Qed.

(** Multiplying by a factor in [1, 2) does not make a positive normal
    number smaller. *)
Lemma fmul_ge_left mx ex my :
  2 ^ 52 <= Zpos mx < 2 ^ 53 ->
  2 ^ 52 <= Zpos my < 2 ^ 53 ->
  -1074 <= ex -> ex + 2 <= 971 ->
  exists r e,
    fmul (S754_finite false mx ex) (S754_finite false my (-52)) = S754_finite false r e /\
    2 ^ 52 <= Zpos r < 2 ^ 53 /\ ex <= e <= ex + 2 /\
    (ex < e \/ (ex = e /\ Zpos mx <= Zpos r)).
Proof.
  intros Hx Hy Hlo Hhi.
  destruct (fmul_normal_pos mx ex my (-52) Hx Hy) as (r & e & E & Hr & H); try lia.
  exists r, e. split; [exact E|]. split; [exact Hr|]. split; [lia|].
  destruct H as [[He Hq]|He]; [right|left; lia].
  split; [lia|].
  assert (Zpos mx <= Zpos mx * Zpos my / 2 ^ 52); [|lia].
  apply Z.div_le_lower_bound; nia.
Qed.

Lemma fltb_finite_pos m1 e1 m2 e2 :
  fltb (S754_finite false m1 e1) (S754_finite false m2 e2) = true <->
  e1 < e2 \/ (e1 = e2 /\ Zpos m1 < Zpos m2).
Proof.
  unfold fltb, SFltb, SFcompare. rewrite compare_cont_Eq_Z.
  destruct (Z.compare_spec e1 e2); destruct (Z.compare_spec (Zpos m1) (Zpos m2));
    split; intros; try discriminate; try reflexivity; try lia.
Qed.

(** A valid float between 1.0 and 2^1000 is a positive normal number. *)
Lemma price_shape p :
  valid p = true -> between f1_0 f2p1000 p = true -> normal_pos (-52) 948 p.
Proof.
  unfold valid, between. intros Hv Hb.
  apply andb_true_iff in Hb. destruct Hb as [Hlo Hhi].
  destruct p as [[|]|[|]| |[|] m e]; try discriminate.
  unfold f1_0 in Hlo. unfold f2p1000 in Hhi.
  apply fleb_finite_pos in Hlo. apply fleb_finite_pos in Hhi.
  simpl in Hv. unfold bounded, canonical_mantissa, fexp, emin, prec, emax in Hv.
  apply andb_true_iff in Hv. destruct Hv as [Hc _]. apply Z.eqb_eq in Hc.
  assert (Hd : Zpos (digits2_pos m) = 53) by lia.
  apply Zdigits2_bounds in Hd. change (53 - 1) with 52 in Hd.
  exists m, e. split; [reflexivity|]. split; [exact Hd|]. lia.
Qed.




End Axis.

(** ** Building the chart *)

Section ChartFacts.

(** A limit that is a positive normal number of ordinary size is stored
    as it is: [set_ylim] neither raises nor widens the range. *)
Lemma set_ylim_normal_pos fig lo hi top :
  -1000 <= lo -> hi <= 1000 ->
  normal_pos lo hi top ->
  plt.set_ylim 0 top fig =
  Ok {| plt.figsize := plt.figsize fig; plt.bars := plt.bars fig;
        plt.ylabel := plt.ylabel fig; plt.title := plt.title fig;
        plt.ylim := Some (f0_0, top) |}.
Proof.
  intros Hlo Hhi (m & e & -> & Hm & He).
  assert (F1 : fltb (S754_finite false m e) f0_0 = false) by reflexivity.
  assert (F2 : fltb f0_0 (S754_finite false m e) = true) by reflexivity.
  assert (F3 : fltb (S754_finite false m e) plt.singular_below = false).
  { destruct (fltb (S754_finite false m e) plt.singular_below) eqn:E; [|reflexivity].
    unfold plt.singular_below in E. apply fltb_finite_pos in E. lia. }
  assert (F4 : fleb (S754_finite false m e) (fmul (S754_finite false m e) plt.tiny) = false).
  { unfold plt.tiny.
    destruct (fmul_normal_pos m e 5070602400912918 (-102)) as (r & e' & E & Hr & H);
      try lia.
    rewrite E.
    destruct (fleb (S754_finite false m e) (S754_finite false r e')) eqn:E'; [|reflexivity].
    apply fleb_finite_pos in E'. lia. }
  unfold plt.set_ylim. change (of_int 0) with f0_0.
  change (is_finite f0_0) with true. cbn [is_finite negb orb].
  unfold plt.nonsingular.
  change (is_finite f0_0) with true. cbn [is_finite negb orb].
  rewrite F1.
  change (fabs f0_0) with f0_0. cbn [fabs SFabs].
  change (py_max [f0_0; S754_finite false m e])
    with (if fltb f0_0 (S754_finite false m e) then S754_finite false m e else f0_0).
  rewrite F2, F3.
  change (fsub (S754_finite false m e) f0_0) with (S754_finite false m e).
  rewrite F4.
  unfold plt.sorted_pair. rewrite F1. reflexivity.
Qed.

Lemma chart_regular p u lo hi :
  -1000 <= lo -> hi <= 1000 ->
  normal_pos lo hi (axis_limit p u) ->
  chart p u = Ok (drawn_chart p u).
Proof.
  intros Hlo Hhi Hn. unfold chart.
  rewrite (set_ylim_normal_pos _ lo hi _ Hlo Hhi Hn). reflexivity.
Qed.

(** The bars are in place before [set_ylim] is called. *)
Lemma chart_bars_of p u fig :
  chart p u = Ok fig ->
  plt.bars fig =
  [ {| plt.label := "Predicted Price"; plt.height := p; plt.color := "#4CAF50" |};
    {| plt.label := "Benchmark Price"; plt.height := avg_price p u;
       plt.color := "#2196F3" |} ].
Proof.
  unfold chart, plt.set_ylim.
  destruct (negb (is_finite (of_int 0)) || negb (is_finite (axis_limit p u)));
    [discriminate|].
  destruct (plt.nonsingular (of_int 0) (axis_limit p u)) as [w0 w1].
  intros [= <-]. reflexivity.
Qed.

(** The chart fails exactly when the limit is NaN or infinite, and then
    with matplotlib's message. *)
Lemma chart_raises p u msg :
  chart p u = Raise msg <->
  is_finite (axis_limit p u) = false /\ msg = plt.limits_error.
Proof.
  unfold chart, plt.set_ylim. change (is_finite (of_int 0)) with true.
  cbn [negb orb].
  destruct (is_finite (axis_limit p u)); cbn [negb].
  - destruct (plt.nonsingular (of_int 0) (axis_limit p u)) as [w0 w1].
    split; [discriminate | intros [H _]; discriminate].
  - split; [intros [= <-]; auto | intros [_ ->]; reflexivity].
Qed.

(** For a price between 1.0 and 2^1000 and a draw between 0.9 and 1.1,
    the limit is a positive normal number and at least both heights. *)
Lemma regular_price_limit p u :
  valid p = true -> between f1_0 f2p1000 p = true ->
  valid u = true -> between f0_9 f1_1 u = true ->
  normal_pos (-1000) 1000 (axis_limit p u) /\
  fleb p (axis_limit p u) = true /\
  fleb (avg_price p u) (axis_limit p u) = true.
Proof.
  intros Hvp Hbp Hvu Hbu.
  destruct (price_shape p Hvp Hbp) as (mp & ep & -> & Hmp & Hep).
  assert (Hu : exists mu eu, u = S754_finite false mu eu /\
                 2 ^ 52 <= Zpos mu < 2 ^ 53 /\ -53 <= eu <= -52).
  { destruct (draw_shape u Hvu Hbu) as [mu [[-> Hm]|[-> Hm]]];
      exists mu; eexists; (split; [reflexivity|]); lia. }
  destruct Hu as (mu & eu & -> & Hmu & Heu).
  destruct (fmul_normal_pos mp ep mu eu Hmp Hmu) as (rb & eb & Eb & Hrb & Heb);
    try lia.
  assert (Heb' : ep - 1 <= eb <= ep + 2) by lia. clear Heb.
  unfold axis_limit, values, avg_price. rewrite py_max_pair, Eb.
  destruct (fltb (S754_finite false mp ep) (S754_finite false rb eb)) eqn:Hlt.
  - apply fltb_finite_pos in Hlt.
    destruct (fmul_ge_left rb eb 5404319552844595) as (rt & et & Et & Hrt & Het & Ht);
      try lia.
    unfold f1_2. rewrite Et. split; [|split].
    + exists rt, et. split; [reflexivity|]. split; [exact Hrt | lia].
    + apply fleb_finite_pos. lia.
    + apply fleb_finite_pos. lia.
  - assert (Hge : eb < ep \/ (eb = ep /\ Zpos rb <= Zpos mp)).
    { destruct (Z.compare_spec ep eb) as [E|E|E]; [|exfalso|left; lia].
      - right. split; [lia|].
        destruct (Z_lt_le_dec (Zpos mp) (Zpos rb)) as [L|L]; [|exact L].
        exfalso.
        assert (T : fltb (S754_finite false mp ep) (S754_finite false rb eb) = true)
          by (apply fltb_finite_pos; right; split; assumption).
        congruence.
      - assert (T : fltb (S754_finite false mp ep) (S754_finite false rb eb) = true)
          by (apply fltb_finite_pos; left; assumption).
        congruence. }
    destruct (fmul_ge_left mp ep 5404319552844595) as (rt & et & Et & Hrt & Het & Ht);
      try lia.
    unfold f1_2. rewrite Et. split; [|split].
    + exists rt, et. split; [reflexivity|]. split; [exact Hrt | lia].
    + apply fleb_finite_pos. lia.
    + apply fleb_finite_pos. lia.
Qed.

Lemma benchmark_bar fig p u :
  plt.bars fig =
    [ {| plt.label := "Predicted Price"; plt.height := p; plt.color := "#4CAF50" |};
      {| plt.label := "Benchmark Price"; plt.height := avg_price p u;
         plt.color := "#2196F3" |} ] ->
  option_map plt.height (bar_named "Benchmark Price" fig) = Some (fmul p u).
Proof. intros E. unfold bar_named. rewrite E. reflexivity. Qed.

End ChartFacts.

(** ** The page of a prediction that returned *)

Section ResultCycle.

Variables (gen : Generator) (h : Host) (d : nat) (model : Model) (p : float).

Hypothesis Hk : cycle_is h (PredictionOk model p).

Lemma page_drawn fig :
  chart p (gen d f0_9 f1_1) = Ok fig ->
  page gen h d = (opening ++ result_events (read_inputs h) p fig ++ closing)%list.
Proof.
  intros Hfig. rewrite (page_cycle gen h d _ Hk). cbn [cycle_render].
  rewrite Hfig. reflexivity.
Qed.

Lemma charts_returned :
  charts (page gen h d) =
  match chart p (gen d f0_9 f1_1) with Ok fig => [fig] | Raise _ => [] end.
Proof. exact (charts_cycle gen h d _ Hk). Qed.

Lemma charts_drawn fig :
  chart p (gen d f0_9 f1_1) = Ok fig -> charts (page gen h d) = [fig].
Proof. intros Hfig. rewrite charts_returned, Hfig. reflexivity. Qed.

Lemma chart_on_page fig :
  In fig (charts (page gen h d)) -> chart p (gen d f0_9 f1_1) = Ok fig.
Proof.
  rewrite charts_returned.
  destruct (chart p (gen d f0_9 f1_1)) as [fig'|msg]; [|intros []].
  intros [->|[]]. reflexivity.
Qed.



End ResultCycle.

(** ** What the insights depend on *)

Section Noninterference.

(** A page shows the insights of its own record or none at all. *)
Lemma shown_insights_page gen h d :
  shown_insights (page gen h d) = [] \/
  shown_insights (page gen h d) = insights (read_inputs h).
Proof.
  destruct (cycle_exists h) as [k Hk].
  rewrite (shown_insights_cycle gen h d k Hk).
  destruct k; auto. destruct (chart p (gen d f0_9 f1_1)); auto.
Qed.

End Noninterference.



(** C10.  The insight list depends on five of the ten fields only -
    [Location_Score], [Has_Pool], [Year_Built], [Distance_to_Center] and
    [Square_Feet]: two records that agree on these derive the same list,
    however their bedrooms, bathrooms, floors, garden and garage
    differ. *)
Theorem insights_depend_on_five_fields (i1 i2 : Inputs) :
  Location_Score i1 = Location_Score i2 ->
  Has_Pool i1 = Has_Pool i2 ->
  Year_Built i1 = Year_Built i2 ->
  Distance_to_Center i1 = Distance_to_Center i2 ->
  Square_Feet i1 = Square_Feet i2 ->
  insights i1 = insights i2.
Proof.
  intros H1 H2 H3 H4 H5. rewrite !insights_by_rule.
  rewrite H1, H2, H3, H4, H5. reflexivity.
Qed.

Lemma insights_depend_on_five_fields_example :
  input_data (read_inputs (typed_page other_rooms (Ok (constant_model f300000)) true)) <>
  input_data (read_inputs (fresh_page (Ok (constant_model f300000)) true)) /\
  insights (read_inputs (typed_page other_rooms (Ok (constant_model f300000)) true)) =
  insights (read_inputs (fresh_page (Ok (constant_model f300000)) true)).
Proof.
  split; [vm_compute; discriminate|].
  apply (insights_depend_on_five_fields
           (read_inputs (typed_page other_rooms (Ok (constant_model f300000)) true))
           (read_inputs (fresh_page (Ok (constant_model f300000)) true)));
    reflexivity.
Defined.

(** ** The comparison chart *)




(** ** Sessions *)

Section Sessions.

Variable gen : Generator.

Lemma session_cons h rest d :
  session gen (h :: rest) d =
  page gen h d :: session gen rest (draws (snd (render gen h d))).
Proof. unfold page. cbn [session]. reflexivity. Qed.

Lemma session_loads_every_cycle hs :
  forall d, Forall (fun t => load_calls t = [model_file]) (session gen hs d).
Proof.
  induction hs as [|h hs IH]; intros d.
  - constructor.
  - rewrite session_cons. constructor.
    + exact (load_calls_page gen h d).
    + apply IH.
Qed.

(** The page of a prediction that returned, for a price and a draw of
    ordinary size: the whole result, with the chart as built. *)
Lemma page_regular h d model p :
  cycle_is h (PredictionOk model p) ->
  valid p = true -> between f1_0 f2p1000 p = true ->
  valid (gen d f0_9 f1_1) = true -> between f0_9 f1_1 (gen d f0_9 f1_1) = true ->
  page gen h d =
  (opening ++
   result_events (read_inputs h) p (drawn_chart p (gen d f0_9 f1_1)) ++ closing)%list.
Proof.
  intros Hk Hvp Hbp Hvu Hbu. apply (page_drawn gen h d model p Hk).
  apply (chart_regular _ _ (-1000) 1000); [lia | lia |].
  exact (proj1 (regular_price_limit _ _ Hvp Hbp Hvu Hbu)).
Qed.

End Sessions.

(** C5.  On a predict action whose prediction returns, the script draws
    once from [np.random.uniform(0.9, 1.1)], taking the generator's next
    draw, and the benchmark bar of the chart is the predicted price
    times that draw; two predict actions in a row use two successive
    draws.  Whenever the draw is a float between 0.9 and 1.1, which is
    what the generator promises, and the prediction is 500000.0, the
    benchmark lies between 450000.0 and 550000.0 and the chart that
    carries it is on the page. *)
Theorem benchmark_is_scaled_prediction
  (gen : Generator) (h : Host) (d : nat) (model : Model) (p : float) :
  cycle_is h (PredictionOk model p) ->
  uniform_calls (page gen h d) = [(f0_9, f1_1)] /\
  draws (snd (render gen h d)) = S d /\
  (forall fig,
     In fig (charts (page gen h d)) ->
     option_map plt.height (bar_named "Benchmark Price" fig) =
       Some (fmul p (gen d f0_9 f1_1))) /\
  (forall h' model' p',
     cycle_is h' (PredictionOk model' p') ->
     session gen [h; h'] d = [page gen h d; page gen h' (S d)] /\
     forall fig',
       In fig' (charts (page gen h' (S d))) ->
       option_map plt.height (bar_named "Benchmark Price" fig') =
         Some (fmul p' (gen (S d) f0_9 f1_1))) /\
  (p = f500000 ->
   valid (gen d f0_9 f1_1) = true ->
   between f0_9 f1_1 (gen d f0_9 f1_1) = true ->
   between f450000 f550000 (fmul p (gen d f0_9 f1_1)) = true /\
   exists fig,
     charts (page gen h d) = [fig] /\
     option_map plt.height (bar_named "Benchmark Price" fig) =
       Some (fmul p (gen d f0_9 f1_1))).
Proof.
  intros Hk.
  assert (Hbar : forall g h0 d0 model0 p0 fig,
            cycle_is h0 (PredictionOk model0 p0) ->
            In fig (charts (page g h0 d0)) ->
            option_map plt.height (bar_named "Benchmark Price" fig) =
              Some (fmul p0 (g d0 f0_9 f1_1))).
  { intros g h0 d0 model0 p0 fig Hk0 Hin. apply benchmark_bar.
    apply chart_bars_of. exact (chart_on_page g h0 d0 model0 p0 Hk0 fig Hin). }
  split; [exact (uniform_calls_cycle gen h d _ Hk)|].
  split; [exact (draws_cycle gen h d _ Hk)|].
  split; [|split].
  - intros fig. exact (Hbar gen h d model p fig Hk).
  - intros h' model' p' Hk'. split.
    + rewrite !session_cons. rewrite (draws_cycle gen h d _ Hk). reflexivity.
    + intros fig'. exact (Hbar gen h' (S d) model' p' fig' Hk').
  - intros -> Hv Hb. split; [apply scaled_500000_bounds; assumption|].
    exists (drawn_chart f500000 (gen d f0_9 f1_1)). split.
    + apply (charts_drawn gen h d model f500000 Hk).
      apply (chart_regular _ _ (-1000) 1000); [lia | lia |].
      exact (proj1 (regular_price_limit f500000 _ eq_refl eq_refl Hv Hb)).
    + reflexivity.
Qed.

Lemma benchmark_of_500000_example :
  cycle_is (fresh_page (Ok (constant_model f500000)) true)
           (PredictionOk (constant_model f500000) f500000) /\
  session alternating_generator
    [ fresh_page (Ok (constant_model f500000)) true;
      fresh_page (Ok (constant_model f500000)) true ] 0 =
    [ page alternating_generator (fresh_page (Ok (constant_model f500000)) true) 0;
      page alternating_generator (fresh_page (Ok (constant_model f500000)) true) 1 ] /\
  between f450000 f550000 (fmul f500000 (alternating_generator 0%nat f0_9 f1_1)) = true /\
  exists fig,
    charts (page alternating_generator
              (fresh_page (Ok (constant_model f500000)) true) 0) = [fig] /\
    option_map plt.height (bar_named "Benchmark Price" fig) = Some f450000.
Proof.
  assert (Hk : cycle_is (fresh_page (Ok (constant_model f500000)) true)
                 (PredictionOk (constant_model f500000) f500000))
    by (simpl; repeat split).
  split; [exact Hk|].
  destruct (benchmark_is_scaled_prediction alternating_generator
              (fresh_page (Ok (constant_model f500000)) true) 0
              (constant_model f500000) f500000 Hk)
    as (_ & _ & _ & Hnext & Hbound).
  split.
  - exact (proj1 (Hnext (fresh_page (Ok (constant_model f500000)) true)
                    (constant_model f500000) f500000 Hk)).
  - exact (Hbound eq_refl eq_refl eq_refl).
Defined.

(** C4.  When the artifact loaded and the prediction call raises, the
    page shows the failure message, no chart, no insight and no price;
    and the cycle leaves nothing behind: the rest of the session runs
    exactly as it would have from the same point.  A next cycle whose
    prediction returns is run as if the failure had not happened: it
    shows its price and no error, and its whole result - chart,
    insights, recommendation, footer - whenever its chart can be drawn,
    as it can for a price between 1.0 and 2^1000 and a draw between 0.9
    and 1.1. *)
Theorem prediction_failure_is_reported
  (gen : Generator) (h : Host) (d : nat) (model : Model) (e : string) :
  cycle_is h (PredictionFailed model e) ->
  errors (page gen h d) = ["Prediction failed: " ++ e] /\
  contains e ("Prediction failed: " ++ e) /\
  charts (page gen h d) = [] /\
  shown_insights (page gen h d) = [] /\
  prices (page gen h d) = [] /\
  (forall rest, session gen (h :: rest) d = page gen h d :: session gen rest d) /\
  (forall h' rest model' p',
     cycle_is h' (PredictionOk model' p') ->
     session gen (h :: h' :: rest) d =
       page gen h d :: page gen h' d :: session gen rest (S d) /\
     prices (page gen h' d) = [p'] /\
     errors (page gen h' d) = [] /\
     (forall fig,
        chart p' (gen d f0_9 f1_1) = Ok fig ->
        page gen h' d =
          (opening ++ result_events (read_inputs h') p' fig ++ closing)%list) /\
     (valid p' = true -> between f1_0 f2p1000 p' = true ->
      valid (gen d f0_9 f1_1) = true -> between f0_9 f1_1 (gen d f0_9 f1_1) = true ->
      page gen h' d =
        (opening ++
         result_events (read_inputs h') p' (drawn_chart p' (gen d f0_9 f1_1)) ++
         closing)%list)).
Proof.
  intros Hk.
  assert (Hd : draws (snd (render gen h d)) = d)
    by (rewrite (draws_cycle gen h d _ Hk); reflexivity).
  split; [exact (errors_cycle gen h d _ Hk)|].
  split; [apply message_contained|].
  split; [exact (charts_cycle gen h d _ Hk)|].
  split; [exact (shown_insights_cycle gen h d _ Hk)|].
  split; [exact (prices_cycle gen h d _ Hk)|].
  split.
  - intros rest. rewrite session_cons, Hd. reflexivity.
  - intros h' rest model' p' Hk'.
    split; [|split; [|split; [|split]]].
    + rewrite !session_cons, Hd, (draws_cycle gen h' d _ Hk'). reflexivity.
    + exact (prices_cycle gen h' d _ Hk').
    + exact (errors_cycle gen h' d _ Hk').
    + intros fig. exact (page_drawn gen h' d model' p' Hk' fig).
    + exact (page_regular gen h' d model' p' Hk').
Qed.

Lemma prediction_failure_example :
  cycle_is (fresh_page (Ok (failing_model "X has 10 features, but LinearRegression is expecting 9 features as input.")) true)
           (PredictionFailed (failing_model "X has 10 features, but LinearRegression is expecting 9 features as input.")
              "X has 10 features, but LinearRegression is expecting 9 features as input.") /\
  map errors
    (session (fixed_generator f0_9)
       [ fresh_page (Ok (failing_model "X has 10 features, but LinearRegression is expecting 9 features as input.")) true;
         fresh_page (Ok (constant_model f300000)) true ] 0) =
    [ ["Prediction failed: X has 10 features, but LinearRegression is expecting 9 features as input."]; [] ] /\
  map prices
    (session (fixed_generator f0_9)
       [ fresh_page (Ok (failing_model "X has 10 features, but LinearRegression is expecting 9 features as input.")) true;
         fresh_page (Ok (constant_model f300000)) true ] 0) =
    [ []; [f300000] ].
Proof.
  assert (Hk : cycle_is (fresh_page (Ok (failing_model "X has 10 features, but LinearRegression is expecting 9 features as input.")) true)
           (PredictionFailed (failing_model "X has 10 features, but LinearRegression is expecting 9 features as input.")
              "X has 10 features, but LinearRegression is expecting 9 features as input."))
    by (simpl; repeat split).
  split; [exact Hk|].
  destruct (prediction_failure_is_reported (fixed_generator f0_9) _ 0 _ _ Hk)
    as (He & _ & _ & _ & Hp & _ & Hnext).
  destruct (Hnext (fresh_page (Ok (constant_model f300000)) true) []
              (constant_model f300000) f300000)
    as (Hs & Hp' & He' & _).
  { simpl. repeat split. }
  rewrite Hs. cbn [session map]. rewrite He, Hp, He', Hp'. split; reflexivity.
Defined.

(** C3, as the code has it.  In every render cycle in which loading the
    artifact fails, the page shows one error, which contains the
    underlying failure message; the predict button is not even drawn and
    no prediction call is made; the cycle runs to its end, footer
    included.  Loading is attempted exactly once in that cycle - and
    once in every cycle of a session, since each cycle executes the
    script from its first line. *)
Theorem load_failure_is_reported_each_cycle
  (gen : Generator) (h : Host) (d : nat) (e : string) :
  joblib_load h model_file = Raise e ->
  errors (page gen h d) = [load_failure_message e] /\
  contains e (load_failure_message e) /\
  buttons (page gen h d) = [] /\
  predict_calls (page gen h d) = [] /\
  load_calls (page gen h d) = [model_file] /\
  fst (render gen h d) = Returned tt /\
  (forall hs d', Forall (fun t => load_calls t = [model_file]) (session gen hs d')).
Proof.
  intros Hload.
  assert (Hk : cycle_is h (LoadFailed e)) by exact Hload.
  rewrite (render_cycle gen h d _ Hk), (page_cycle gen h d _ Hk).
  cbn [cycle_render fst snd trace].
  split; [|split; [|split; [|split; [|split; [|split]]]]].
  - unfold errors. rewrite !collect_app. reflexivity.
  - unfold load_failure_message.
    destruct (message_contained "Error: " e) as (before & after & E).
    exists (("Model failed to load. Put 'linear_regression_real_estate.joblib' in this folder."
             ++ nl) ++ before)%string, after.
    rewrite E. reflexivity.
  - unfold buttons. rewrite !collect_app. reflexivity.
  - unfold predict_calls. rewrite !collect_app. reflexivity.
  - unfold load_calls. rewrite !collect_app. reflexivity.
  - reflexivity.
  - intros hs d'. apply session_loads_every_cycle.
Qed.

Lemma load_failure_example :
  joblib_load (fresh_page missing_artifact true) model_file = missing_artifact /\
  errors (page (fixed_generator f0_9) (fresh_page missing_artifact true) 0) =
    [ load_failure_message
        "[Errno 2] No such file or directory: 'linear_regression_real_estate.joblib'" ] /\
  predict_calls (page (fixed_generator f0_9) (fresh_page missing_artifact true) 0) = [].
Proof.
  split; [reflexivity|].
  destruct (load_failure_is_reported_each_cycle (fixed_generator f0_9)
              (fresh_page missing_artifact true) 0
              "[Errno 2] No such file or directory: 'linear_regression_real_estate.joblib'"
              eq_refl)
    as (He & _ & _ & Hp & _).
  split; [exact He | exact Hp].
Defined.

(** C3, as the spec words it, fails: a process whose first cycle cannot
    load the artifact loads it again in the next cycle and, once the
    file is there, predicts. *)
Lemma load_is_retried_next_cycle :
  joblib_load (fresh_page missing_artifact true) model_file = missing_artifact /\
  map load_calls
    (session (fixed_generator f0_9)
       [ fresh_page missing_artifact true;
         fresh_page (Ok (constant_model f300000)) true ] 0) =
    [ [model_file]; [model_file] ] /\
  map predict_calls
    (session (fixed_generator f0_9)
       [ fresh_page missing_artifact true;
         fresh_page (Ok (constant_model f300000)) true ] 0) =
    [ []; [input_data default_inputs] ] /\
  map prices
    (session (fixed_generator f0_9)
       [ fresh_page missing_artifact true;
         fresh_page (Ok (constant_model f300000)) true ] 0) =
    [ []; [f300000] ] /\
  ~ load_failure_is_permanent (fixed_generator f0_9)
      [ fresh_page missing_artifact true;
        fresh_page (Ok (constant_model f300000)) true ].
Proof.
  split; [reflexivity|].
  split; [vm_compute; reflexivity|].
  split; [vm_compute; reflexivity|].
  split; [vm_compute; reflexivity|].
  intros H. specialize (H _ _ _ eq_refl eq_refl).
  rewrite session_cons in H. cbn [tl] in H.
  rewrite session_cons in H. apply Forall_inv in H. destruct H as [E _].
  rewrite load_calls_page in E. discriminate E.
Qed.

(** C8, as the code has it.  When the prediction call fails, the error
    is shown and [st.stop()] ends the cycle on the spot: the page is
    what was emitted up to the call, then the message.  What comes
    earlier in the script stays (titles, controls, the summary header,
    the button); nothing that comes later is rendered - no chart, no
    insight, no final recommendation, and no footer. *)
Theorem prediction_failure_halts_cycle
  (gen : Generator) (h : Host) (d : nat) (model : Model) (e : string) :
  cycle_is h (PredictionFailed model e) ->
  fst (render gen h d) = Halted /\
  page gen h d =
    (opening ++
     [ Ui st.sidebar (st.button "🔮 Predict Price");
       PredictCall (input_data (read_inputs h));
       Ui st.main (st.error ("Prediction failed: " ++ e)) ])%list /\
  titles (page gen h d) =
    [ "🏡 Property Input Panel"; "🏡 Real Estate Price Prediction Dashboard" ] /\
  subheaders (page gen h d) = [ "🔍 Prediction Summary" ] /\
  buttons (page gen h d) = [ "🔮 Predict Price" ] /\
  charts (page gen h d) = [] /\
  shown_insights (page gen h d) = [] /\
  recommendations (page gen h d) = [] /\
  footers (page gen h d) = [].
Proof.
  intros Hk.
  rewrite (render_cycle gen h d _ Hk), (page_cycle gen h d _ Hk).
  cbn [cycle_render fst snd trace].
  repeat split;
    unfold titles, subheaders, buttons, charts, shown_insights, recommendations, footers;
    rewrite collect_app; reflexivity.
Qed.

Lemma prediction_failure_halts_example :
  cycle_is (fresh_page (Ok (failing_model "could not convert string to float")) true)
           (PredictionFailed (failing_model "could not convert string to float")
              "could not convert string to float") /\
  fst (render (fixed_generator f0_9)
         (fresh_page (Ok (failing_model "could not convert string to float")) true) 0) = Halted /\
  footers (page (fixed_generator f0_9)
             (fresh_page (Ok (failing_model "could not convert string to float")) true) 0) = [].
Proof.
  assert (Hk : cycle_is (fresh_page (Ok (failing_model "could not convert string to float")) true)
           (PredictionFailed (failing_model "could not convert string to float")
              "could not convert string to float"))
    by (simpl; repeat split).
  split; [exact Hk|].
  destruct (prediction_failure_halts_cycle (fixed_generator f0_9) _ 0 _ _ Hk)
    as (Hh & _ & _ & _ & _ & _ & _ & _ & Hf).
  split; [exact Hh | exact Hf].
Defined.

(** C8, as the spec words it, fails: after a failed prediction the
    footer is not on the page, while it is on the page of the same
    visitor's next cycle once the prediction succeeds. *)
Lemma footer_missing_after_failed_prediction :
  cycle_is (fresh_page (Ok (failing_model "could not convert string to float")) true)
           (PredictionFailed (failing_model "could not convert string to float")
              "could not convert string to float") /\
  footers (page (fixed_generator f0_9)
             (fresh_page (Ok (failing_model "could not convert string to float")) true) 0) = [] /\
  footers (page (fixed_generator f0_9)
             (fresh_page (Ok (constant_model f300000)) true) 0) = [footer_html] /\
  ~ footer_survives_failed_prediction (fixed_generator f0_9)
      (fresh_page (Ok (failing_model "could not convert string to float")) true) 0.
Proof.
  split; [simpl; repeat split|].
  split; [vm_compute; reflexivity|].
  split; [vm_compute; reflexivity|].
  intros H.
  specialize (H (failing_model "could not convert string to float")
                "could not convert string to float" eq_refl eq_refl eq_refl).
  vm_compute in H. discriminate H.
Qed.

(** ** Worked examples *)

(** The end-to-end example of the specification: the default record and
    a model that predicts 300000.0. *)
Example default_record_end_to_end :
  prices (page (fixed_generator f0_9)
            (fresh_page (Ok (constant_model f300000)) true) 0) = [f300000] /\
  map theme_of
    (shown_insights (page (fixed_generator f0_9)
                       (fresh_page (Ok (constant_model f300000)) true) 0)) =
    [ Some GoodLocation; Some SuggestPool; Some ModernBuilding;
      Some GoodProximity; Some GoodSpace ].
Proof. vm_compute. split; reflexivity. Qed.

(** The two ends of the benchmark interval are reached: 500000.0 times
    the floats 0.9 and 1.1 round to 450000.0 and 550000.0 exactly. *)
Example benchmark_interval_ends :
  fmul f500000 f0_9 = f450000 /\ fmul f500000 f1_1 = f550000.
Proof. vm_compute. split; reflexivity. Qed.

(** Without a click the page is the prompt, between the fixed parts. *)
Example idle_page :
  page (fixed_generator f0_9) (fresh_page (Ok (constant_model f300000)) false) 0 =
  (opening ++
   [ Ui st.sidebar (st.button "🔮 Predict Price");
     Ui st.main (st.warning "👈 Enter details on the left panel and click **Predict Price**.") ]
   ++ closing)%list.
Proof. vm_compute. reflexivity. Qed.

(** A prediction too large for the axis: for 1.5e308 and the draw 1.1
    the limit overflows; the price is on the page, and the cycle ends
    at [set_ylim] without chart, insights, recommendation or footer. *)
Example overflowing_prediction :
  prices (page (fixed_generator f1_1)
            (fresh_page (Ok (constant_model f1_5e308)) true) 0) = [f1_5e308] /\
  fst (render (fixed_generator f1_1)
         (fresh_page (Ok (constant_model f1_5e308)) true) 0) = Raised plt.limits_error /\
  charts (page (fixed_generator f1_1)
            (fresh_page (Ok (constant_model f1_5e308)) true) 0) = [] /\
  shown_insights (page (fixed_generator f1_1)
                    (fresh_page (Ok (constant_model f1_5e308)) true) 0) = [] /\
  footers (page (fixed_generator f1_1)
             (fresh_page (Ok (constant_model f1_5e308)) true) 0) = [].
Proof. vm_compute. split; [|split; [|split; [|split]]]; reflexivity. Qed.

(* ================================================================== *)
(** * Further properties of the script *)
(* ================================================================== *)

(** ** The shape of a page *)

(** X1.  Every page begins with the same twenty events - the load
    attempt, the page configuration, the sidebar with its ten controls
    in their fixed order, and the header - whatever the controls return
    and whether or not the artifact loads. *)
Theorem every_page_begins_alike (gen : Generator) (h : Host) (d : nat) :
  List.length opening = 20%nat /\
  firstn 20 (page gen h d) = opening /\
  exists rest, page gen h d = (opening ++ rest)%list.
Proof.
  destruct (cycle_exists h) as [k Hk].
  destruct (opening_cycle gen h d k Hk) as [rest E].
  split; [reflexivity|]. split; [|exists rest; exact E].
  rewrite E. change 20%nat with (List.length opening + 0)%nat.
  rewrite firstn_app_2. cbn [firstn]. apply app_nil_r.
Qed.

(** X2.  A prediction is attempted exactly when the artifact loaded and
    the button is pressed in that cycle, and then exactly once, on the
    record built from the controls; otherwise the model is not called. *)
Theorem prediction_needs_model_and_click (gen : Generator) (h : Host) (d : nat) :
  (predict_calls (page gen h d) = [input_data (read_inputs h)] <->
   exists model,
     joblib_load h model_file = Ok model /\
     button_clicked h "🔮 Predict Price" = true) /\
  (predict_calls (page gen h d) = [] <->
   (exists e, joblib_load h model_file = Raise e) \/
   button_clicked h "🔮 Predict Price" = false).
Proof.
  destruct (cycle_exists h) as [k Hk].
  rewrite (predict_calls_cycle gen h d k Hk).
  destruct k as [e|model|model e|model p]; simpl in Hk.
  - split; split.
    + discriminate.
    + intros (model & Hl & _). congruence.
    + intros _. left. exists e. exact Hk.
    + reflexivity.
  - destruct Hk as [Hl Hc]. split; split.
    + discriminate.
    + intros (model' & _ & Hc'). congruence.
    + intros _. right. exact Hc.
    + reflexivity.
  - destruct Hk as (Hl & Hc & _). split; split.
    + intros _. exists model. auto.
    + reflexivity.
    + discriminate.
    + intros [[e' He']|Hc']; congruence.
  - destruct Hk as (Hl & Hc & _). split; split.
    + intros _. exists model. auto.
    + reflexivity.
    + discriminate.
    + intros [[e' He']|Hc']; congruence.
Qed.

(** X3.  The script ends before its last line in exactly two cases.  It
    halts at [st.stop()] exactly when the artifact loaded, the button is
    pressed and the prediction raises.  It ends with an uncaught
    exception exactly when the prediction returned and the axis limit
    computed from it is NaN or infinite; the exception is matplotlib's
    "Axis limits cannot be NaN or Inf".  A cycle that runs to the end
    renders the footer exactly once, as the last thing on the page. *)
Theorem script_ends_early_in_two_cases (gen : Generator) (h : Host) (d : nat) :
  (fst (render gen h d) = Halted <->
   exists model e, cycle_is h (PredictionFailed model e)) /\
  (forall msg,
     fst (render gen h d) = Raised msg <->
     exists model p,
       cycle_is h (PredictionOk model p) /\
       is_finite (axis_limit p (gen d f0_9 f1_1)) = false /\
       msg = plt.limits_error) /\
  (fst (render gen h d) = Returned tt ->
   footers (page gen h d) = [footer_html] /\
   exists before, page gen h d = (before ++ closing)%list).
Proof.
  destruct (cycle_exists h) as [k Hk].
  rewrite (outcome_cycle gen h d k Hk), (footers_cycle gen h d k Hk),
    (page_cycle gen h d k Hk).
  destruct k as [e|model|model e|model p]; cbn [cycle_render].
  - cbn [snd trace]. simpl in Hk. split; [|split].
    + split; [discriminate|]. intros (model & e' & Hl & _). congruence.
    + intros msg. split; [discriminate|].
      intros (model & p & (Hl & _) & _). congruence.
    + intros _. split; [reflexivity|]. eexists. rewrite app_assoc. reflexivity.
  - cbn [snd trace]. destruct Hk as [Hl Hc]. split; [|split].
    + split; [discriminate|]. intros (model' & e' & _ & Hc' & _). congruence.
    + intros msg. split; [discriminate|].
      intros (model' & p & (_ & Hc' & _) & _). congruence.
    + intros _. split; [reflexivity|]. eexists. rewrite app_assoc. reflexivity.
  - cbn [snd trace]. split; [|split].
    + split; [|reflexivity]. intros _. exists model, e. exact Hk.
    + intros msg. split; [discriminate|].
      intros (model' & p & (Hl' & _ & Hp') & _). destruct Hk as (Hl & _ & Hp).
      rewrite Hl in Hl'. injection Hl' as <-. congruence.
    + discriminate.
  - assert (Hother : forall model' p', cycle_is h (PredictionOk model' p') -> p' = p).
    { intros model' p' (Hl' & _ & Hp'). destruct Hk as (Hl & _ & Hp).
      rewrite Hl in Hl'. injection Hl' as <-. congruence. }
    assert (Hnot : ~ exists model' e', cycle_is h (PredictionFailed model' e')).
    { intros (model' & e' & Hl' & _ & Hp'). destruct Hk as (Hl & _ & Hp).
      rewrite Hl in Hl'. injection Hl' as <-. congruence. }
    destruct (chart p (gen d f0_9 f1_1)) as [fig|msg0] eqn:Hfig; cbn [snd trace].
    + split; [|split].
      * split; [discriminate|]. intros H. destruct (Hnot H).
      * intros msg. split; [discriminate|].
        intros (model' & p' & Hk' & Hf & ->).
        rewrite (Hother _ _ Hk') in Hf.
        assert (E : chart p (gen d f0_9 f1_1) = Raise plt.limits_error)
          by (apply chart_raises; auto).
        congruence.
      * intros _. split; [reflexivity|]. eexists. rewrite !app_assoc. reflexivity.
    + apply chart_raises in Hfig. destruct Hfig as [Hf ->]. split; [|split].
      * split; [discriminate|]. intros H. destruct (Hnot H).
      * intros msg. split.
        -- intros [= <-]. exists model, p. auto.
        -- intros (_ & _ & _ & _ & ->). reflexivity.
      * discriminate.
Qed.

(** X4.  Every page reports exactly one status: an error, the idle
    prompt, or a price.  The prompt is shown exactly when the artifact
    loaded and the button is not pressed; a price is shown exactly when
    the prediction succeeded, and it is the predicted value. *)
Theorem one_status_per_page (gen : Generator) (h : Host) (d : nat) :
  (List.length (errors (page gen h d)) + List.length (warnings (page gen h d)) +
   List.length (prices (page gen h d)) = 1)%nat /\
  (warnings (page gen h d) =
     ["👈 Enter details on the left panel and click **Predict Price**."] <->
   exists model, cycle_is h (Idle model)) /\
  (forall p, prices (page gen h d) = [p] <->
             exists model, cycle_is h (PredictionOk model p)).
Proof.
  destruct (cycle_exists h) as [k Hk].
  rewrite (errors_cycle gen h d k Hk), (warnings_cycle gen h d k Hk),
    (prices_cycle gen h d k Hk).
  destruct k as [e|model|model e|model p]; simpl in Hk;
    (split; [reflexivity|]); split; try intros q; split; try discriminate;
    try (intros (model' & Hk'); simpl in Hk';
         repeat match goal with H : _ /\ _ |- _ => destruct H end; congruence).
  - intros _. exists model. exact Hk.
  - intros [= <-]. exists model. exact Hk.
Qed.

(** X5.  How the parts of a result go together: a page shows at most
    one price, and one draw is taken from the generator per price; a
    chart needs a price; and the final recommendation and the five
    insights are on the page exactly when the chart is. *)
Theorem result_parts_come_together (gen : Generator) (h : Host) (d : nat) :
  (List.length (prices (page gen h d)) <= 1)%nat /\
  List.length (uniform_calls (page gen h d)) = List.length (prices (page gen h d)) /\
  (List.length (charts (page gen h d)) <= List.length (prices (page gen h d)))%nat /\
  List.length (recommendations (page gen h d)) = List.length (charts (page gen h d)) /\
  List.length (shown_insights (page gen h d)) =
    (5 * List.length (charts (page gen h d)))%nat.
Proof.
  destruct (cycle_exists h) as [k Hk].
  rewrite (prices_cycle gen h d k Hk), (charts_cycle gen h d k Hk),
    (recommendations_cycle gen h d k Hk), (uniform_calls_cycle gen h d k Hk),
    (shown_insights_cycle gen h d k Hk).
  destruct k as [e|model|model e|model p]; cbn [List.length];
    try (repeat split; lia).
  destruct (chart p (gen d f0_9 f1_1)); cbn [List.length];
    repeat split; try lia.
  rewrite insights_by_rule. reflexivity.
Qed.

(** ** The prediction array *)

(** X6.  With the artifact loaded and the button pressed, only the first
    element of the array returned by [predict] is used: it is the price
    shown, whatever follows it.  An empty array is handled like a raising
    model - the index error is reported as a prediction failure and the
    cycle halts without a price. *)
Theorem first_prediction_is_the_price
  (gen : Generator) (h : Host) (d : nat) (model : Model) :
  joblib_load h model_file = Ok model ->
  button_clicked h "🔮 Predict Price" = true ->
  (forall y ys,
     predict model (input_data (read_inputs h)) = Ok (y :: ys) ->
     prices (page gen h d) = [y] /\ errors (page gen h d) = []) /\
  (predict model (input_data (read_inputs h)) = Ok [] ->
   errors (page gen h d) =
     ["Prediction failed: index 0 is out of bounds for axis 0 with size 0"] /\
   prices (page gen h d) = [] /\
   fst (render gen h d) = Halted) /\
  (forall e,
     predict model (input_data (read_inputs h)) = Raise e ->
     errors (page gen h d) = ["Prediction failed: " ++ e] /\
     prices (page gen h d) = []).
Proof.
  intros Hl Hc. split; [|split].
  - intros y ys Hp.
    assert (Hk : cycle_is h (PredictionOk model y)).
    { simpl. unfold predict_first. rewrite Hp. auto. }
    rewrite (prices_cycle gen h d _ Hk), (errors_cycle gen h d _ Hk). auto.
  - intros Hp.
    assert (Hk : cycle_is h (PredictionFailed model
                               "index 0 is out of bounds for axis 0 with size 0")).
    { simpl. unfold predict_first. rewrite Hp. auto. }
    rewrite (prices_cycle gen h d _ Hk), (errors_cycle gen h d _ Hk),
      (outcome_cycle gen h d _ Hk). auto.
  - intros e Hp.
    assert (Hk : cycle_is h (PredictionFailed model e)).
    { simpl. unfold predict_first. rewrite Hp. auto. }
    rewrite (prices_cycle gen h d _ Hk), (errors_cycle gen h d _ Hk). auto.
Qed.

Lemma first_prediction_examples :
  prices (page (fixed_generator f0_9)
            (fresh_page (Ok (array_model [f300000; f500000])) true) 0) = [f300000] /\
  errors (page (fixed_generator f0_9) (fresh_page (Ok (array_model [])) true) 0) =
    ["Prediction failed: index 0 is out of bounds for axis 0 with size 0"].
Proof.
  split.
  - exact (proj1 (proj1 (first_prediction_is_the_price (fixed_generator f0_9)
                           (fresh_page (Ok (array_model [f300000; f500000])) true) 0
                           (array_model [f300000; f500000]) eq_refl eq_refl)
                   f300000 [f500000] eq_refl)).
  - exact (proj1 (proj1 (proj2 (first_prediction_is_the_price (fixed_generator f0_9)
                                  (fresh_page (Ok (array_model [])) true) 0
                                  (array_model []) eq_refl eq_refl))
                   eq_refl)).
Defined.

(** ** Sessions as compositions of cycles *)

Section Composition.

Variable gen : Generator.

Lemma session_draws_cons h rest d :
  session_draws gen (h :: rest) d =
  session_draws gen rest (draws (snd (render gen h d))).
Proof. cbn [session_draws]. reflexivity. Qed.

Lemma draws_count h d :
  draws (snd (render gen h d)) = (d + List.length (prices (page gen h d)))%nat.
Proof.
  destruct (cycle_exists h) as [k Hk].
  rewrite (draws_cycle gen h d k Hk), (prices_cycle gen h d k Hk).
  destruct k; cbn [List.length]; lia.
Qed.

(** What a page reports does not depend on the generator or on how many
    draws were taken before. *)
Lemma status_ignores_generator gen' h d d' :
  errors (page gen h d) = errors (page gen' h d') /\
  warnings (page gen h d) = warnings (page gen' h d') /\
  prices (page gen h d) = prices (page gen' h d') /\
  predict_calls (page gen h d) = predict_calls (page gen' h d').
Proof.
  destruct (cycle_exists h) as [k Hk].
  rewrite !(errors_cycle _ h _ k Hk), !(warnings_cycle _ h _ k Hk),
    !(prices_cycle _ h _ k Hk), !(predict_calls_cycle _ h _ k Hk).
  repeat split.
Qed.

End Composition.

(** X7.  A session is the composition of its cycles, and the draw count
    is all they hand on: running two runs of cycles one after the other
    gives the pages of the first, then the pages of the second started
    from the draws the first has taken.  The generator advances by
    exactly one draw per price shown, so after a session it stands at
    the initial count plus the number of successful predictions. *)
Theorem session_composes (gen : Generator) (hs1 hs2 : list Host) (d : nat) :
  session gen (hs1 ++ hs2) d =
    (session gen hs1 d ++ session gen hs2 (session_draws gen hs1 d))%list /\
  List.length (session gen hs1 d) = List.length hs1 /\
  session_draws gen hs1 d =
    (d + List.length (List.concat (map prices (session gen hs1 d))))%nat.
Proof.
  revert d. induction hs1 as [|h hs1 IH]; intros d.
  - cbn [app session session_draws map List.concat List.length]. repeat split. lia.
  - rewrite <- app_comm_cons, !session_cons, session_draws_cons.
    destruct (IH (draws (snd (render gen h d)))) as (E1 & E2 & E3).
    rewrite E1, E3. cbn [List.length map List.concat]. rewrite E2, length_app.
    rewrite draws_count. repeat split. lia.
Qed.

(** X8.  No cycle shows anything left over from an earlier one: the
    errors, prompt, price and prediction calls of each page of a session
    are those of a fresh run of the script against that cycle's host,
    with any generator and any number of earlier draws; and the insights
    on a page, if any, are those of that cycle's own record. *)
Theorem pages_keep_nothing_from_earlier_cycles
  (gen gen' : Generator) (hs : list Host) (d d' : nat) :
  map errors (session gen hs d) = map (fun h => errors (page gen' h d')) hs /\
  map warnings (session gen hs d) = map (fun h => warnings (page gen' h d')) hs /\
  map prices (session gen hs d) = map (fun h => prices (page gen' h d')) hs /\
  map predict_calls (session gen hs d) =
    map (fun h => predict_calls (page gen' h d')) hs /\
  Forall2 (fun h t => shown_insights t = [] \/
                      shown_insights t = insights (read_inputs h))
          hs (session gen hs d).
Proof.
  revert d. induction hs as [|h hs IH]; intros d.
  - repeat split. constructor.
  - rewrite session_cons. cbn [map].
    destruct (IH (draws (snd (render gen h d)))) as (E1 & E2 & E3 & E4 & E5).
    destruct (status_ignores_generator gen gen' h d d') as (F1 & F2 & F3 & F4).
    rewrite E1, E2, E3, E4, F1, F2, F3, F4. repeat split.
    constructor; [apply shown_insights_page | exact E5].
Qed.

(** ** The y axis of the chart *)

Section InvertedAxis.


End InvertedAxis.

(** X9.  Headroom (line 115): for a predicted price between 1.0 and
    2^1000 and a draw between 0.9 and 1.1, the chart is drawn, its y
    axis starts at 0, and its upper limit is at least the height of each
    of the two bars, so no bar is cut off. *)
Theorem axis_has_headroom (p u : float) :
  valid p = true -> between f1_0 f2p1000 p = true ->
  valid u = true -> between f0_9 f1_1 u = true ->
  exists fig top,
    chart p u = Ok fig /\
    plt.ylim fig = Some (f0_0, top) /\
    Forall (fun b => fleb (plt.height b) top = true) (plt.bars fig).
Proof.
  intros Hvp Hbp Hvu Hbu.
  destruct (regular_price_limit p u Hvp Hbp Hvu Hbu) as (Hn & Hp & Ha).
  exists (drawn_chart p u), (axis_limit p u).
  split; [apply (chart_regular _ _ (-1000) 1000); [lia | lia | exact Hn]|].
  split; [reflexivity|].
  repeat constructor; cbn [plt.height]; assumption.
Qed.

Lemma axis_has_headroom_example :
  between f1_0 f2p1000 f500000 = true /\
  between f0_9 f1_1 f1_1 = true /\
  exists fig top,
    chart f500000 f1_1 = Ok fig /\
    plt.ylim fig = Some (f0_0, top) /\
    Forall (fun b => fleb (plt.height b) top = true) (plt.bars fig).
Proof.
  split; [reflexivity|]. split; [reflexivity|].
  exact (axis_has_headroom f500000 f1_1 eq_refl eq_refl eq_refl eq_refl).
Defined.



(** ** The order of a result page *)

(** X11.  A prediction that returned and whose chart was drawn lays the
    page out in this order: the fixed opening, the button, the call to
    the model, the price in the left column, the chart header, the draw,
    the chart, the insights header, one bullet per insight in the order
    they were derived, a rule, the final recommendation under its
    header, and the footer. *)
Theorem result_page_in_order
  (gen : Generator) (h : Host) (d : nat) (model : Model) (p : float)
  (fig : plt.Figure) :
  cycle_is h (PredictionOk model p) ->
  chart p (gen d f0_9 f1_1) = Ok fig ->
  page gen h d =
  (opening ++
   [ Ui st.sidebar (st.button "🔮 Predict Price");
     PredictCall (input_data (read_inputs h));
     Ui st.col1 (st.success "### 💰 Estimated Price: $" p);
     Ui st.main (st.subheader "📊 Price Comparison Chart");
     UniformCall f0_9 f1_1;
     Ui st.main (st.pyplot fig);
     Ui st.main (st.subheader "📌 Insights & Recommendations") ] ++
   map (fun tip => Ui st.main (st.write ("- " ++ tip))) (insights (read_inputs h)) ++
   [ Ui st.main (st.markdown "---" false);
     Ui st.main (st.subheader "💡 Final Recommendation");
     Ui st.main (st.info final_message);
     Ui st.main (st.markdown "---" false);
     Ui st.main (st.markdown footer_html true) ])%list.
Proof.
  intros Hk Hfig. rewrite (page_drawn gen h d model p Hk fig Hfig).
  unfold result_events, started_events, closing. rewrite <- !app_assoc. reflexivity.
Qed.

Lemma result_page_in_order_example :
  cycle_is (fresh_page (Ok (constant_model f300000)) true)
           (PredictionOk (constant_model f300000) f300000) /\
  subheaders (page (fixed_generator f0_9)
                (fresh_page (Ok (constant_model f300000)) true) 0) =
    [ "🔍 Prediction Summary"; "📊 Price Comparison Chart";
      "📌 Insights & Recommendations"; "💡 Final Recommendation" ].
Proof.
  assert (Hk : cycle_is (fresh_page (Ok (constant_model f300000)) true)
                 (PredictionOk (constant_model f300000) f300000))
    by (simpl; repeat split).
  split; [exact Hk|].
  assert (Hfig : chart f300000 (fixed_generator f0_9 0%nat f0_9 f1_1) =
                 Ok (drawn_chart f300000 f0_9))
    by (vm_compute; reflexivity).
  rewrite (result_page_in_order (fixed_generator f0_9) _ 0 _ _ _ Hk Hfig).
  vm_compute. reflexivity.
Defined.
